(** * Swiggy Instamart video builder: a shallow embedding of
      [swiggy_video_maker.py] and the properties of its slide pipeline.

    Conventions of the embedding.
    - Python [int] is [Z].
    - A Python [float] that is truncated to a pixel count by [int()] is a
      binary64 number ([PrimFloat.float]): the panel split, the ribbon
      width, the factor of [upscale_min_side] and the factor that fits the
      product image. [n * x] converts the int first, [a / b] on two ints is
      the correctly rounded quotient, and [int()] truncates toward zero.
      Times and durations, the easing curve and the factor of [paste_logo]
      are exact rationals ([Q]).
    - Python [str] is [string], read as a sequence of code points below 256;
      whitespace and lower-casing follow Python's tables on that range. The
      two texts of the program with a code point beyond that range (the
      bullet arrow and the separator of the ribbon) are lists of code
      points.
    - Rows of the spreadsheet are finite maps from column names to cells.
    - Calls into PIL and MoviePy build symbolic values ([Image], [VideoClip],
      [AudioClip]) that record the operation and the attributes the program
      reads back (sizes, start and end times, positions, gain). The
      libraries are the ones the imports need: MoviePy 1.0 (it has
      [moviepy.editor]) and a Pillow that still has [draw.textsize].
    - A call that can raise returns a [result]; [main] ends in [Uncaught]
      when an exception reaches it. Limits of the machine (memory, the
      integer range inside PIL) are not modelled. *)

From Stdlib Require Import ZArith QArith Qround Lqa Lia String Ascii List Bool.
From Stdlib Require Import DecimalString Floats.
From stdpp Require Import gmap strings list.
Import ListNotations.
Open Scope Z_scope.
Set Warnings "-register-all,-inexact-float".

(** ** Python strings *)

Module PyStr.

Definition ord (c : ascii) : Z := Z.of_N (N_of_ascii c).

Definition chr (n : Z) : ascii := ascii_of_N (Z.to_N n).

(** [str.isspace] on code points below 256. *)
Definition is_space (c : ascii) : bool :=
  let n := ord c in
  ((9 <=? n) && (n <=? 13)) || ((28 <=? n) && (n <=? 32))
  || (n =? 133) || (n =? 160).

(** [str.lower] on one code point below 256. *)
Definition lower_char (c : ascii) : ascii :=
  let n := ord c in
  if ((65 <=? n) && (n <=? 90))
     || ((192 <=? n) && (n <=? 222) && negb (n =? 215))
  then chr (n + 32) else c.

Fixpoint lower (s : string) : string :=
  match s with
  | EmptyString => EmptyString
  | String c s' => String (lower_char c) (lower s')
  end.

Fixpoint lstrip (s : string) : string :=
  match s with
  | EmptyString => EmptyString
  | String c s' => if is_space c then lstrip s' else s
  end.

Fixpoint rstrip (s : string) : string :=
  match s with
  | EmptyString => EmptyString
  | String c s' =>
      match rstrip s' with
      | EmptyString => if is_space c then EmptyString else String c EmptyString
      | r => String c r
      end
  end.

Definition strip (s : string) : string := rstrip (lstrip s).

(** Does the string begin a new token boundary (empty or whitespace first)? *)
Definition at_boundary (s : string) : bool :=
  match s with
  | EmptyString => true
  | String c _ => is_space c
  end.

(** [s.split()] with no argument: the maximal whitespace-free runs. *)
Fixpoint split (s : string) : list string :=
  match s with
  | EmptyString => []
  | String c s' =>
      if is_space c then split s'
      else if at_boundary s' then String c EmptyString :: split s'
      else match split s' with
           | t :: ts => String c t :: ts
           | [] => [String c EmptyString]
           end
  end.

(** [sep.join(l)]. *)
Fixpoint join (sep : string) (l : list string) : string :=
  match l with
  | [] => EmptyString
  | [t] => t
  | t :: ts => t +:+ sep +:+ join sep ts
  end.

(** [l[:k]] for a Python int [k]: a negative bound counts from the end. *)
Definition slice_to {A} (l : list A) (k : Z) : list A :=
  if k <? 0 then take (Z.to_nat (Z.of_nat (length l) + k)) l
  else take (Z.to_nat k) l.

Fixpoint prefix_of (p s : string) : bool :=
  match p, s with
  | EmptyString, _ => true
  | String a p', String b s' => if Ascii.eqb a b then prefix_of p' s' else false
  | String _ _, EmptyString => false
  end.

(** [k in s] on strings: substring test. *)
Fixpoint contains (k s : string) : bool :=
  prefix_of k s ||
  match s with
  | EmptyString => false
  | String _ s' => contains k s'
  end.

(** Python truthiness of a string. *)
Definition truthy (s : string) : bool :=
  match s with EmptyString => false | _ => true end.

(** [s or ""] where [s] may be [None]. *)
Definition or_empty (s : option string) : string := default EmptyString s.

(** A token: non-empty and free of whitespace. *)
Fixpoint no_space (s : string) : bool :=
  match s with
  | EmptyString => true
  | String c s' => negb (is_space c) && no_space s'
  end.

Definition is_token (s : string) : bool := truthy s && no_space s.

End PyStr.

(** ** [clamp_words] *)

Definition clamp_words (s : option string) (max_words : Z) : string :=
  let toks := PyStr.split (PyStr.or_empty s) in
  PyStr.join " " (PyStr.slice_to toks max_words).

(** ** Numbers *)

(** [int(x)] on a float: truncation toward zero. *)
Definition py_int (x : Q) : Z := Z.quot (Qnum x) (Z.pos (Qden x)).

(** [math.ceil]. *)
Definition math_ceil (x : Q) : Z := Qceiling x.

(** [round(x)] on a float: nearest integer, ties to the even one. *)
Definition py_round (x : Q) : Z :=
  let f := Qfloor x in
  let frac := (x - inject_Z f)%Q in
  if Qle_bool frac (1 # 2)
  then (if Qeq_bool frac (1 # 2) then (if Z.even f then f else f + 1) else f)
  else f + 1.

Definition Qmin (a b : Q) : Q := if Qle_bool a b then a else b.

Definition Qmax (a b : Q) : Q := if Qle_bool a b then b else a.

(** ** Exceptions *)

Inductive exn :=
| TypeError
| ValueError
| OverflowError
| ZeroDivisionError
| UnicodeEncodeError
| OSError.

(** The outcome of a call: the value it returns or the exception it raises. *)
Inductive result (A : Type) :=
| Ok (a : A)
| Raise (e : exn).

Arguments Ok {A} a.
Arguments Raise {A} e.

Definition bind {A B} (r : result A) (k : A -> result B) : result B :=
  match r with
  | Ok a => k a
  | Raise e => Raise e
  end.

Notation "x <- r ;; k" := (bind r (fun x => k))
  (at level 100, r at next level, k at level 200, right associativity).

Definition result_map {A B} (f : A -> B) (r : result A) : result B :=
  x <- r ;; Ok (f x).

(** ** Binary64 arithmetic *)

(** An int as an exact (unrounded) floating-point datum. *)
Definition Z2SF (z : Z) : spec_float :=
  match z with
  | Z0 => S754_zero false
  | Zpos p => S754_finite false p 0
  | Zneg p => S754_finite true p 0
  end.

(** [float(n)] of an int: the nearest binary64 number, ties to even. *)
Definition float_of_int (z : Z) : result float :=
  let f := SF2Prim (binary_normalize prec emax z 0 false) in
  if PrimFloat.is_infinity f then Raise OverflowError else Ok f.

(** [a / b] on two ints: the exact quotient, rounded once. *)
Definition true_divide (a b : Z) : result float :=
  if b =? 0 then Raise ZeroDivisionError
  else
    let f := SF2Prim (SFdiv prec emax (Z2SF a) (Z2SF b)) in
    if PrimFloat.is_infinity f then Raise OverflowError else Ok f.

(** [int(x)] on a float: truncation toward zero. *)
Definition int_of_float (f : float) : result Z :=
  match Prim2SF f with
  | S754_zero _ => Ok 0
  | S754_finite s m e =>
      let v := if 0 <=? e then Z.pos m * 2 ^ e else Z.pos m / 2 ^ (- e) in
      Ok (if s then - v else v)
  | S754_infinity _ => Raise OverflowError
  | S754_nan => Raise ValueError
  end.

(** The rational a finite float stands for. *)
Definition float_value (f : float) : Q :=
  match Prim2SF f with
  | S754_finite s m e =>
      let v := if 0 <=? e then inject_Z (Z.pos m * 2 ^ e)
               else Qmake (Z.pos m) (Z.to_pos (2 ^ (- e))) in
      if s then Qopp v else v
  | _ => 0%Q
  end.

(** [n * x] for an int [n] and a float [x]. *)
Definition int_times_float (n : Z) (x : float) : result float :=
  f <- float_of_int n ;; Ok (PrimFloat.mul f x).

(** [min(a, b)] on two floats. *)
Definition float_min (a b : float) : float := if PrimFloat.ltb b a then b else a.

(** [int(n * x)]. *)
Definition scale_side (n : Z) (x : float) : result Z :=
  p <- int_times_float n x ;; int_of_float p.

(** ** Spreadsheet rows *)

Inductive Cell :=
| CStr (s : string)
| CInt (n : Z)
| CBool (b : bool)
| CNaN.

(** [str(value)] of a cell. *)
Definition str (c : Cell) : string :=
  match c with
  | CStr s => s
  | CInt n => NilZero.string_of_int (Z.to_int n)
  | CBool true => "True"
  | CBool false => "False"
  | CNaN => "nan"
  end.

Abbreviation Row := (gmap string Cell).

(** [row.get(col, "")]. *)
Definition row_get (row : Row) (col : string) : Cell :=
  default (CStr "") (row !! col).

(** ** Configuration: the keys of [config.yaml] that the program reads.
    A key read through [cfg.get(key, d)] is optional. *)

Definition rgb := (Z * Z * Z)%type.
Definition rgba := (Z * Z * Z * Z)%type.

Definition opaque (c : rgb) : rgba := let '(r, g, b) := c in (r, g, b, 255).

Record Config := {
  frame_width : Z;
  frame_height : Z;
  fps : Z;
  duration_per_slide : Q;
  max_slides : Z;
  left_panel_ratio : float;
  background_color : string;
  bullet_color_hex : string;
  font_title_path : option string;
  font_body_path : option string;
  title_font_size_px : Z;
  body_font_size_px : Z;
  title_case_style : option string;
  text_max_words_per_bullet : Z;
  text_line_spacing_px : Z;
  edge_padding_px : Z;
  safe_area_inset_px : Z;
  logo_path : option string;
  logo_position : string;
  logo_margin_px : Z;
  remove_bg : option bool;
  skip_if_blurry : option bool;
  upscale_to_min_side_px : option Z;
  barcode_filename_keywords : option (list string);
  images_folder : string;
  skip_col : option string;
  image_col : string;
  title_col : string;
  bullets_cols : list string;
  dimensions_col : option string;
  capacity_col : option string;
  dimension_marking : option bool;
  music_path : option string;
  output_path : option string;
  target_bitrate : option string
}.

(** ** Images (PIL), as the operations that built them *)

Inductive Font :=
| FreeTypeFont (path : string) (size : Z)
| DefaultBitmapFont.

Inductive Image :=
| Bitmap (source : string) (w h : Z)
| New (w h : Z) (color : rgba)
| DrawText (im : Image) (xy : Z * Z) (txt : string) (fill : rgba) (font : option Font)
| DrawCodepoints (im : Image) (xy : Z * Z) (txt : list Z) (fill : rgba) (font : option Font)
| DrawRectangle (im : Image) (x0 y0 x1 y1 : Z) (fill : rgba)
| Resize (im : Image) (w h : Z)
| AlphaComposite (im over : Image) (xy : Z * Z).

(** [im.size]. *)
Fixpoint size (im : Image) : Z * Z :=
  match im with
  | Bitmap _ w h => (w, h)
  | New w h _ => (w, h)
  | DrawText im' _ _ _ _ => size im'
  | DrawCodepoints im' _ _ _ _ => size im'
  | DrawRectangle im' _ _ _ _ _ => size im'
  | Resize _ w h => (w, h)
  | AlphaComposite im' _ _ => size im'
  end.

(** [Image.new(mode, (w, h), color)]. *)
Definition Image_new (w h : Z) (color : rgba) : result Image :=
  if (w <? 0) || (h <? 0) then Raise ValueError else Ok (New w h color).

(** [im.resize((w, h))]: a copy when the size is the image's own. *)
Definition Image_resize (im : Image) (w h : Z) : result Image :=
  if (fst (size im) =? w) && (snd (size im) =? h) then Ok im
  else if (w <? 1) || (h <? 1) then Raise ValueError
  else Ok (Resize im w h).

(** [im.alpha_composite(over, xy)]. *)
Definition alpha_composite (im over : Image) (xy : Z * Z) : result Image :=
  if (fst xy <? 0) || (snd xy <? 0) then Raise ValueError
  else Ok (AlphaComposite im over xy).

(** The code points of a [str]. *)
Definition codepoints (s : string) : list Z := map PyStr.ord (list_ascii_of_string s).

(** Can [font] draw and measure the text? A FreeType font takes any text;
    the built-in bitmap font (also the default of [draw.text]) encodes it
    as Latin-1 first. *)
Definition encodable (font : option Font) (txt : list Z) : bool :=
  match font with
  | Some (FreeTypeFont _ _) => true
  | _ => forallb (fun c => c <? 256) txt
  end.

(** Python truthiness of a sequence. *)
Definition nonempty {A} (l : list A) : bool :=
  match l with
  | [] => false
  | _ :: _ => true
  end.

(** ** Audio and video clips (MoviePy) *)

Inductive AudioClip :=
| AudioFile (path : string) (duration : Q)
| ConcatenatedAudio (clips : list AudioClip)
| AudioSubclip (c : AudioClip) (t_start t_end : Q)
| VolumeX (c : AudioClip) (factor : Q).

Definition Qsum (l : list Q) : Q := fold_right Qplus 0%Q l.

(** [clip.duration] of an audio clip; [subclip] counts a negative end
    from the end of the clip. *)
Fixpoint audio_duration (a : AudioClip) : Q :=
  match a with
  | AudioFile _ d => d
  | ConcatenatedAudio clips => Qsum (map audio_duration clips)
  | AudioSubclip c t0 t1 =>
      ((if Qle_bool 0 t1 then t1 else audio_duration c + t1) - t0)%Q
  | VolumeX c _ => audio_duration c
  end.


Definition Position := Q -> Z * Z.

(** A video clip with the attributes [start], [duration] and [pos];
    [end = start + duration]. An [ImageClip] starts at 0 with no duration. *)
Inductive VideoClip :=
| ImageClip (img : Image) (start : Q) (duration : option Q) (pos : Position)
| CompositeVideoClip (clips : list VideoClip) (start : Q) (duration : option Q)
    (pos : Position) (audio : option AudioClip).

Definition clip_start (c : VideoClip) : Q :=
  match c with
  | ImageClip _ s _ _ => s
  | CompositeVideoClip _ s _ _ _ => s
  end.

Definition clip_duration (c : VideoClip) : option Q :=
  match c with
  | ImageClip _ _ d _ => d
  | CompositeVideoClip _ _ d _ _ => d
  end.

Definition clip_end (c : VideoClip) : option Q :=
  match clip_duration c with
  | Some d => Some (clip_start c + d)%Q
  | None => None
  end.

Definition clip_pos (c : VideoClip) : Position :=
  match c with
  | ImageClip _ _ _ p => p
  | CompositeVideoClip _ _ _ p _ => p
  end.

Definition clip_audio (c : VideoClip) : option AudioClip :=
  match c with
  | ImageClip _ _ _ _ => None
  | CompositeVideoClip _ _ _ _ a => a
  end.

Definition clip_layers (c : VideoClip) : list VideoClip :=
  match c with
  | ImageClip _ _ _ _ => []
  | CompositeVideoClip cs _ _ _ _ => cs
  end.

Definition clip_image (c : VideoClip) : option Image :=
  match c with
  | ImageClip im _ _ _ => Some im
  | CompositeVideoClip _ _ _ _ _ => None
  end.

Definition origin : Position := fun _ => (0, 0).

(** [ImageClip(np.array(im))]. *)
Definition image_clip (im : Image) : VideoClip := ImageClip im 0 None origin.

(** [clip.set_duration(d)]: the start is kept, the end moves. *)
Definition set_duration (c : VideoClip) (d : Q) : VideoClip :=
  match c with
  | ImageClip im s _ p => ImageClip im s (Some d) p
  | CompositeVideoClip cs s _ p a => CompositeVideoClip cs s (Some d) p a
  end.

Definition set_position (c : VideoClip) (p : Position) : VideoClip :=
  match c with
  | ImageClip im s d _ => ImageClip im s d p
  | CompositeVideoClip cs s d _ a => CompositeVideoClip cs s d p a
  end.

Definition set_audio (c : VideoClip) (a : AudioClip) : VideoClip :=
  match c with
  | ImageClip im s d p => ImageClip im s d p
  | CompositeVideoClip cs s d p _ => CompositeVideoClip cs s d p (Some a)
  end.

(** [max(ends)] when every clip has an end. *)
Fixpoint max_ends (cs : list VideoClip) : option Q :=
  match cs with
  | [] => None
  | [c] => clip_end c
  | c :: rest =>
      match clip_end c, max_ends rest with
      | Some e, Some m => Some (Qmax e m)
      | _, _ => None
      end
  end.

(** [CompositeVideoClip(clips)]: the clips are layered, each one shown from
    its own [start] to its own [end] on the composite's clock; the composite
    starts at 0 and lasts until the latest end. *)
Definition composite (cs : list VideoClip) : VideoClip :=
  CompositeVideoClip cs 0 (max_ends cs) origin None.

(** [clip.is_playing(t)]. *)
Definition is_playing (c : VideoClip) (t : Q) : bool :=
  Qle_bool (clip_start c) t &&
  match clip_end c with
  | Some e => negb (Qle_bool e t)
  | None => true
  end.

(** [CompositeVideoClip.playing_clips(t)], by index in the layer list. *)
Definition playing_indices (c : VideoClip) (t : Q) : list nat :=
  map fst (List.filter (fun ic => is_playing (snd ic) t)
                  (combine (seq 0 (length (clip_layers c))) (clip_layers c))).

(** ** Paths (pathlib, POSIX flavour) *)

Module PyPath.

Fixpoint split_on (sep : ascii) (s : string) : list string :=
  match s with
  | EmptyString => [EmptyString]
  | String c s' =>
      if Ascii.eqb c sep then EmptyString :: split_on sep s'
      else match split_on sep s' with
           | t :: ts => String c t :: ts
           | [] => [String c EmptyString]
           end
  end.

Definition parts (p : string) : list string :=
  List.filter (fun c => negb (String.eqb c "") && negb (String.eqb c ".")) (split_on "/" p).

(** [Path(p).name]: the final component. *)
Definition name (p : string) : string := List.last (parts p) EmptyString.

(** [root / file]. *)
Definition join (root file : string) : string :=
  if PyStr.prefix_of "/" file then file
  else if String.eqb root "" then file
  else root +:+ "/" +:+ file.

End PyPath.

(** ** Colours *)

(** The value of a hexadecimal digit. *)
Definition hex_digit (c : ascii) : option Z :=
  let n := PyStr.ord c in
  if (48 <=? n) && (n <=? 57) then Some (n - 48)
  else if (97 <=? n) && (n <=? 102) then Some (n - 87)
  else if (65 <=? n) && (n <=? 70) then Some (n - 55)
  else None.

(** The digits of an integer literal in base 16: at least one digit, and
    underscores only singly between digits. *)
Fixpoint digits16 (s : string) (acc : Z) (after_digit : bool) : option Z :=
  match s with
  | EmptyString => if after_digit then Some acc else None
  | String c r =>
      if Ascii.eqb c "_"
      then (if after_digit then digits16 r acc false else None)
      else match hex_digit c with
           | Some d => digits16 r (16 * acc + d) true
           | None => None
           end
  end.

(** The whitespace [int()] accepts around a number: the ASCII whitespace
    and, of the other code points below 256, U+0085 and U+00A0. *)
Definition int_space (c : ascii) : bool :=
  let n := PyStr.ord c in
  ((9 <=? n) && (n <=? 13)) || (n =? 32) || (n =? 133) || (n =? 160).

Fixpoint lstrip_int (s : string) : string :=
  match s with
  | EmptyString => EmptyString
  | String c s' => if int_space c then lstrip_int s' else s
  end.

Fixpoint rstrip_int (s : string) : string :=
  match s with
  | EmptyString => EmptyString
  | String c s' =>
      match rstrip_int s' with
      | EmptyString => if int_space c then EmptyString else String c EmptyString
      | r => String c r
      end
  end.

(** [int(s, 16)]; [None] when it raises [ValueError]. Surrounding
    whitespace, a sign and the prefix [0x] (with one underscore after it)
    are accepted. *)
Definition int16 (s : string) : option Z :=
  let s := rstrip_int (lstrip_int s) in
  let '(negative, s) :=
    match s with
    | String c r =>
        if Ascii.eqb c "+" then (false, r)
        else if Ascii.eqb c "-" then (true, r)
        else (false, s)
    | EmptyString => (false, s)
    end in
  let s :=
    match s with
    | String c (String x r) =>
        if Ascii.eqb c "0" && (Ascii.eqb x "x" || Ascii.eqb x "X")
        then match r with
             | String u r' => if Ascii.eqb u "_" then r' else r
             | EmptyString => r
             end
        else s
    | _ => s
    end in
  option_map (fun v => if negative then - v else v) (digits16 s 0 false).

(** [s.lstrip(c)] for a single character [c]. *)
Fixpoint lstrip_char (c : ascii) (s : string) : string :=
  match s with
  | EmptyString => EmptyString
  | String x r => if Ascii.eqb x c then lstrip_char c r else s
  end.

Fixpoint str_drop (n : nat) (s : string) : string :=
  match n, s with
  | O, _ => s
  | S n', String _ r => str_drop n' r
  | S _, EmptyString => EmptyString
  end.

Fixpoint str_take (n : nat) (s : string) : string :=
  match n, s with
  | S n', String c r => String c (str_take n' r)
  | _, _ => EmptyString
  end.

(** [s[i:j]] for [0 <= i <= j]. *)
Definition str_slice (s : string) (i j : nat) : string := str_take (j - i) (str_drop i s).

(** [hex_to_rgb]; [None] when an [int(..., 16)] raises. *)
Definition hex_to_rgb (h : string) : option rgb :=
  let h := lstrip_char "#" h in
  match int16 (str_slice h 0 2) with
  | None => None
  | Some r =>
      match int16 (str_slice h 2 4) with
      | None => None
      | Some g =>
          match int16 (str_slice h 4 6) with
          | None => None
          | Some b => Some (r, g, b)
          end
      end
  end.

(** [hex_to_rgb] as a call. *)
Definition hex_color (h : string) : result rgb :=
  match hex_to_rgb h with
  | Some c => Ok c
  | None => Raise ValueError
  end.

(** ** What the program asks of its environment *)

Class Runtime := {
  (** [Path(p).exists()] *)
  path_exists : string -> bool;
  (** [Image.open(p).convert("RGBA")]; [None] when it raises *)
  Image_open : string -> option Image;
  (** does [ImageFont.truetype(p, size)] load? *)
  truetype : string -> bool;
  (** [draw.textsize(text, font=font)] *)
  textsize : option Font -> string -> Z * Z;
  (** the same on a text given by its code points *)
  textsize_wide : option Font -> list Z -> Z * Z;
  (** the optional [rembg.remove]; on an image, [None] when it raises *)
  rembg_remove : option (Image -> option Image);
  (** [AudioFileClip(p).duration]; [None] when the file cannot be read *)
  audio_file_duration : string -> option Q;
  (** [str.upper] *)
  str_upper : string -> string
}.

Section Program.

Context {RT : Runtime}.

Definition ensure_font (path : string) (fallback_bold : bool) : Font :=
  if PyStr.truthy path && path_exists path && truetype path
  then FreeTypeFont path 10
  else
    let fallback := if fallback_bold then "DejaVuSans-Bold.ttf" else "DejaVuSans.ttf" in
    if truetype fallback then FreeTypeFont fallback 10 else DefaultBitmapFont.

Definition apply_title_case (s : option string) (style : string) : string :=
  let s := PyStr.strip (PyStr.or_empty s) in
  if String.eqb style "upper" then str_upper s
  else if String.eqb style "sentence" then
    match s with
    | EmptyString => EmptyString
    | String c r => str_upper (String c EmptyString) +:+ r
    end
  else s.

Definition remove_bg_if_possible (im : Image) : Image :=
  match rembg_remove with
  | None => im
  | Some remove =>
      match remove im with
      | Some out => out
      | None => im
      end
  end.

Definition upscale_min_side (im : Image) (min_side : Z) : result Image :=
  let '(w, h) := size im in
  if Z.min w h >=? min_side then Ok im
  else
    scale <- true_divide min_side (Z.min w h) ;;
    new_w <- scale_side w scale ;;
    new_h <- scale_side h scale ;;
    Image_resize im new_w new_h.

(** *** Text panel *)

(** [draw.text] and [draw.textsize] on a text given by its code points. *)
Definition draw_codepoints (canvas : Image) (xy : Z * Z) (txt : list Z) (fill : rgba)
    (font : option Font) : result Image :=
  if encodable font txt then Ok (DrawCodepoints canvas xy txt fill font)
  else Raise UnicodeEncodeError.

Definition textsize_codepoints (font : option Font) (txt : list Z) : result (Z * Z) :=
  if encodable font txt then Ok (textsize_wide font txt) else Raise UnicodeEncodeError.

(** The font at the configured pixel size: a font with a [path] is loaded
    again from it, the built-in font is used as it is. *)
Definition sized (f : Font) (px : Z) : result Font :=
  match f with
  | FreeTypeFont path _ => if truetype path then Ok (FreeTypeFont path px) else Raise OSError
  | DefaultBitmapFont => Ok DefaultBitmapFont
  end.

(** The loop of [wrap_text]: [cur] and [lines] are its two variables. *)
Fixpoint wrap_loop (font : Font) (pad max_w : Z) (words : list string)
    (cur : string) (lines : list string) : list string :=
  match words with
  | [] => if PyStr.truthy cur then lines ++ [cur] else lines
  | w :: rest =>
      let test := PyStr.strip (cur +:+ " " +:+ w) in
      let bw := fst (textsize (Some font) test) in
      if bw <=? max_w - pad * 2
      then wrap_loop font pad max_w rest test lines
      else wrap_loop font pad max_w rest w
             (if PyStr.truthy cur then lines ++ [cur] else lines)
  end.

(** [wrap_text], a closure of [render_text_panel] over [pad]. *)
Definition wrap_text (pad : Z) (txt : string) (font : Font) (max_w : Z) : list string :=
  wrap_loop font pad max_w (PyStr.split txt) EmptyString [].

Record Fonts := { fonts_title : Font; fonts_body : Font }.

(** [panel_w = int(W * left_ratio)]. *)
Definition panel_width (cfg : Config) : result Z :=
  scale_side (frame_width cfg) (left_panel_ratio cfg).

(** The arrow U+27A4 that precedes a bullet. *)
Definition arrow : list Z := [10148].

Definition black : rgba := (0, 0, 0, 255).

Definition draw_title_line (cfg : Config) (title_font : Font)
    (st : Image * Z) (line : string) : Image * Z :=
  let '(canvas, y) := st in
  let pad := edge_padding_px cfg in
  let th := snd (textsize (Some title_font) line) in
  (DrawText canvas (pad, y) line black (Some title_font),
   y + th + text_line_spacing_px cfg).

(** One turn of the bullet loop. The arrow is drawn first; the built-in
    font cannot encode it. *)
Definition draw_bullet (cfg : Config) (bullet_color : rgb) (body_font : Font)
    (st : Image * Z) (b : string) : result (Image * Z) :=
  let '(canvas, y) := st in
  if negb (PyStr.truthy b) then Ok st
  else
    let pad := edge_padding_px cfg in
    let b := clamp_words (Some b) (text_max_words_per_bullet cfg) in
    canvas <- draw_codepoints canvas (pad, y) arrow (opaque bullet_color) (Some body_font) ;;
    asize <- textsize_codepoints (Some body_font) arrow ;;
    let '(aw, ah) := asize in
    let canvas := DrawText canvas (pad + aw + 18, y) b black (Some body_font) in
    let th := snd (textsize (Some body_font) b) in
    Ok (canvas, y + Z.max ah th + text_line_spacing_px cfg).

Fixpoint draw_bullets (cfg : Config) (bullet_color : rgb) (body_font : Font)
    (bullets : list string) (st : Image * Z) : result (Image * Z) :=
  match bullets with
  | [] => Ok st
  | b :: rest =>
      st <- draw_bullet cfg bullet_color body_font st b ;;
      draw_bullets cfg bullet_color body_font rest st
  end.

Definition render_text_panel (text_title : string) (bullets : list string)
    (cfg : Config) (fonts : Fonts) : result Image :=
  let H := frame_height cfg in
  panel_w <- panel_width cfg ;;
  let panel_h := H in
  let pad := edge_padding_px cfg in
  let line_gap := text_line_spacing_px cfg in
  bullet_color <- hex_color (bullet_color_hex cfg) ;;
  canvas <- Image_new panel_w panel_h (255, 255, 255, 0) ;;
  title_font <- sized (fonts_title fonts) (title_font_size_px cfg) ;;
  body_font <- sized (fonts_body fonts) (body_font_size_px cfg) ;;
  let y := pad in
  let title := apply_title_case (Some text_title) (default "standard" (title_case_style cfg)) in
  let title_lines := wrap_text pad title title_font (panel_w - 2 * pad) in
  let '(canvas, y) := fold_left (draw_title_line cfg title_font) title_lines (canvas, y) in
  let y := y + line_gap in
  st <- draw_bullets cfg bullet_color body_font bullets (canvas, y) ;;
  Ok (fst st).

(** *** Logo *)

(** [scale] in [paste_logo], as a rational. *)
Definition logo_scale (W lw : Z) : Q :=
  Qmin 1 (inject_Z W * (18 # 100) / inject_Z lw).

(** The logo as [paste_logo] draws it: resized when [scale != 1.0]. *)
Definition scaled_logo (W : Z) (logo_im : Image) : Image :=
  let '(lw, lh) := size logo_im in
  let scale := logo_scale W lw in
  if negb (Qeq_bool scale 1)
  then Resize logo_im (py_int (inject_Z lw * scale)) (py_int (inject_Z lh * scale))
  else logo_im.

(** Where [paste_logo] puts a logo of width [lw]. *)
Definition logo_xy (cfg : Config) (W lw : Z) : Z * Z :=
  let margin := logo_margin_px cfg in
  let x := if String.eqb (logo_position cfg) "top_right" then W - lw - margin else margin in
  (x, margin).

(** [paste_logo]: the frame after [alpha_composite]. *)
Definition paste_logo (frame_im logo_im : Image) (cfg : Config) : Image :=
  let W := fst (size frame_im) in
  let logo_im := scaled_logo W logo_im in
  let lw := fst (size logo_im) in
  AlphaComposite frame_im logo_im (logo_xy cfg W lw).

(** The call of [paste_logo] with the ways it can fail: a logo of width 0
    divides by zero, [resize] refuses an empty target and
    [alpha_composite] a negative destination. *)
Definition paste_logo_call (frame_im logo_im : Image) (cfg : Config) : result Image :=
  let W := fst (size frame_im) in
  let lw := fst (size logo_im) in
  if lw =? 0 then Raise ZeroDivisionError
  else
    let scaled := scaled_logo W logo_im in
    let xy := logo_xy cfg W (fst (size scaled)) in
    if negb (Qeq_bool (logo_scale W lw) 1)
       && ((fst (size scaled) <? 1) || (snd (size scaled) <? 1))
    then Raise ValueError
    else if (fst xy <? 0) || (snd xy <? 0) then Raise ValueError
    else Ok (paste_logo frame_im logo_im cfg).

(** The size at which [paste_logo] draws a [lw] by [lh] logo, with the
    factor in binary64, to compare [scaled_logo] with. *)
Definition logo_size64 (W lw lh : Z) : result (Z * Z) :=
  if lw =? 0 then Raise ZeroDivisionError
  else
    cap <- int_times_float W 0.18%float ;;
    width <- float_of_int lw ;;
    let scale := float_min 1%float (cap / width)%float in
    if PrimFloat.eqb scale 1%float then Ok (lw, lh)
    else
      new_w <- scale_side lw scale ;;
      new_h <- scale_side lh scale ;;
      Ok (new_w, new_h).

(** *** One slide *)

(** [ease_out_cubic(t, d)]. *)
Definition ease_out_cubic_d (t d : Q) : Q :=
  if Qle_bool d t then 1
  else let p := (t / d - 1)%Q in (p * p * p + 1)%Q.

(** [ease_out_cubic(t)] with the default [d = 0.6]. *)
Definition ease_out_cubic (t : Q) : Q := ease_out_cubic_d t (6 # 10).

Definition newline : string := String (ascii_of_nat 10) EmptyString.

(** The image built in the [except] branch of [build_slide_clip]. *)
Definition placeholder (img_path : string) : Image :=
  DrawText (New 800 800 (230, 230, 230, 255)) (40, 40)
    ("Missing image:" +:+ newline +:+ PyPath.name img_path) (80, 80, 80, 255) None.

(** The [try]/[except] around [Image.open]. *)
Definition open_product_image (img_path : string) : Image :=
  match Image_open img_path with
  | Some im => im
  | None => placeholder img_path
  end.

(** The local variables of [build_slide_clip] before the clips are made. *)
Record SlideLocals := {
  panel_w : Z;
  panel_h : Z;
  bg : Image;
  panel_im : Image;
  im : Image;
  avail_w : Z;
  avail_h : Z;
  new_size : Z * Z;
  im_resized : Image;
  rx : Z;
  ry : Z;
  composed : Image
}.

(** Lines 191 to 252 of [build_slide_clip]. The blur check of lines 213
    to 219 only prints a warning. *)
Definition slide_locals (img_path title : string) (bullets : list string)
    (cfg : Config) (fonts : Fonts) (logo_rgba : option Image) : result SlideLocals :=
  let W := frame_width cfg in
  let H := frame_height cfg in
  panel_w <- panel_width cfg ;;
  let panel_h := H in
  bg_color <- hex_color (background_color cfg) ;;
  bg <- Image_new W H (opaque bg_color) ;;
  panel_im <- render_text_panel title bullets cfg fonts ;;
  let im := open_product_image img_path in
  let im := if default true (remove_bg cfg) then remove_bg_if_possible im else im in
  im <- upscale_min_side im (default 1000 (upscale_to_min_side_px cfg)) ;;
  let avail_w := W - panel_w - safe_area_inset_px cfg * 2 in
  let avail_h := H - safe_area_inset_px cfg * 2 in
  let iw := fst (size im) in
  let ih := snd (size im) in
  scale_w <- true_divide avail_w iw ;;
  scale_h <- true_divide avail_h ih ;;
  let scale := float_min scale_w scale_h in
  new_w <- scale_side iw scale ;;
  new_h <- scale_side ih scale ;;
  let new_size := (new_w, new_h) in
  im_resized <- Image_resize im new_w new_h ;;
  composed <- alpha_composite bg panel_im (0, 0) ;;
  let rx := panel_w + (avail_w - new_w) / 2 + safe_area_inset_px cfg in
  let ry := (H - new_h) / 2 in
  composed <- alpha_composite composed im_resized (rx, ry) ;;
  composed <- match logo_rgba with
              | Some logo => paste_logo_call composed logo cfg
              | None => Ok composed
              end ;;
  Ok {| panel_w := panel_w; panel_h := panel_h; bg := bg; panel_im := panel_im;
        im := im; avail_w := avail_w; avail_h := avail_h; new_size := new_size;
        im_resized := im_resized; rx := rx; ry := ry; composed := composed |}.

Definition panel_pos (L : SlideLocals) : Position :=
  fun t => (py_int (- inject_Z (panel_w L) + ease_out_cubic t * inject_Z (panel_w L)), 0).

Definition prod_pos (cfg : Config) (L : SlideLocals) : Position :=
  fun t =>
    let x0 := inject_Z (frame_width cfg) in
    let x1 := inject_Z (rx L) in
    (py_int (x0 + (x1 - x0) * ease_out_cubic t), ry L).

(** The overlay clip of the logo in the list of lines 282 to 290. *)
Definition logo_overlay (cfg : Config) (logo_rgba : Image) : VideoClip :=
  let W := frame_width cfg in
  set_duration
    (set_position (image_clip logo_rgba)
       (fun _ => (W - fst (size logo_rgba) - logo_margin_px cfg, logo_margin_px cfg)))
    (duration_per_slide cfg).

(** The four entries of the list of lines 282 to 290; the last one is
    [None] when there is no logo. The snapshot [composed] (with the pasted
    logo) only feeds [base_clip], which is not among them. *)
Definition slide_layers (cfg : Config) (L : SlideLocals) (logo_rgba : option Image)
    : list (option VideoClip) :=
  let per := duration_per_slide cfg in
  let panel_anim := set_duration (image_clip (panel_im L)) per in
  let prod_anim := set_duration (image_clip (im_resized L)) per in
  let canvas := set_duration (image_clip (bg L)) per in
  [Some canvas;
   Some (set_position panel_anim (panel_pos L));
   Some (set_position prod_anim (prod_pos cfg L));
   match logo_rgba with
   | Some logo => Some (logo_overlay cfg logo)
   | None => None
   end].

(** [CompositeVideoClip(entries.__iter__())]: with no [size] argument the
    constructor reads [clips[0].size], and a list iterator cannot be
    indexed. *)
Definition CompositeVideoClip_of_iterator (entries : list (option VideoClip))
    : result VideoClip :=
  Raise TypeError.

Definition build_slide_clip (img_path title : string) (bullets : list string)
    (cfg : Config) (fonts : Fonts) (logo_rgba : option Image) : result VideoClip :=
  L <- slide_locals img_path title bullets cfg fonts logo_rgba ;;
  CompositeVideoClip_of_iterator (slide_layers cfg L logo_rgba).

(** *** The run *)

Definition skip_values : list string := ["1"; "true"; "yes"; "y"].

(** String membership in a Python set literal. *)
Definition str_in (s : string) (l : list string) : bool := existsb (String.eqb s) l.

(** The skip test of the row loop. *)
Definition row_skipped (cfg : Config) (row : Row) : bool :=
  str_in (PyStr.lower (PyStr.strip (str (row_get row (default "skip" (skip_col cfg))))))
         skip_values.

(** [image_file] of a row. *)
Definition row_image_file (cfg : Config) (row : Row) : string :=
  PyStr.strip (str (row_get row (image_col cfg))).

(** The barcode test: [any(k in lowered for k in keywords)]. *)
Definition looks_like_barcode (cfg : Config) (image_file : string) : bool :=
  let lowered := PyStr.lower image_file in
  existsb (fun k => PyStr.contains k lowered) (default [] (barcode_filename_keywords cfg)).

(** The non-empty stripped bullet cells of a row. *)
Definition row_bullets (cfg : Config) (row : Row) : list string :=
  List.filter (fun val => PyStr.truthy val)
         (map (fun col => PyStr.strip (str (row_get row col))) (bullets_cols cfg)).

(** The separator of the ribbon text: a space, the bullet U+2022, a space. *)
Definition bullet_sep : list Z := [32; 8226; 32].

(** [" • ".join(parts)] on code points. *)
Fixpoint join_codepoints (sep : list Z) (parts : list (list Z)) : list Z :=
  match parts with
  | [] => []
  | [t] => t
  | t :: ts => t ++ sep ++ join_codepoints sep ts
  end.

(** The ribbon layer that the loop adds around a slide. *)
Definition ribbon_clip (cfg : Config) (overlay_txt : list Z) : result VideoClip :=
  let W := frame_width cfg in
  let H := frame_height cfg in
  base <- Image_new W H (0, 0, 0, 0) ;;
  box_w <- scale_side W 0.28%float ;;
  let box_h := 64 in
  let x := safe_area_inset_px cfg in
  let y := H - box_h - safe_area_inset_px cfg in
  let base := DrawRectangle base x y (x + box_w) (y + box_h) (0, 0, 0, 122) in
  let font := ensure_font (PyStr.or_empty (font_body_path cfg)) false in
  let font :=
    match font with
    | FreeTypeFont path _ => if truetype path then FreeTypeFont path 36 else font
    | DefaultBitmapFont => if truetype "DejaVuSans.ttf" then FreeTypeFont "DejaVuSans.ttf" 36 else font
    end in
  base <- draw_codepoints base (x + 12, y + 12) overlay_txt (255, 255, 255, 255) (Some font) ;;
  Ok (set_duration (image_clip base) (duration_per_slide cfg)).

(** The body of the row loop once a row has passed the filters. *)
Definition row_clip (cfg : Config) (fonts : Fonts) (logo_rgba : option Image)
    (row : Row) : result VideoClip :=
  let image_file := row_image_file cfg row in
  let img_path := PyPath.join (images_folder cfg) image_file in
  let title := PyStr.strip (str (row_get row (title_col cfg))) in
  let bullets := row_bullets cfg row in
  clip <- build_slide_clip img_path title bullets cfg fonts logo_rgba ;;
  let dim_txt := PyStr.strip (str (row_get row (default "" (dimensions_col cfg)))) in
  let cap_txt := PyStr.strip (str (row_get row (default "" (capacity_col cfg)))) in
  let overlay_txt :=
    join_codepoints bullet_sep
      (map codepoints (List.filter (fun t => PyStr.truthy t) [cap_txt; dim_txt])) in
  if nonempty overlay_txt && default true (dimension_marking cfg)
  then
    ribbon <- ribbon_clip cfg overlay_txt ;;
    Ok (composite [clip; ribbon])
  else Ok clip.

(** The row loop of [main]; [slides] is the list built so far. *)
Fixpoint collect_slides (cfg : Config) (fonts : Fonts) (logo_rgba : option Image)
    (rows : list Row) (slides : list VideoClip) : result (list VideoClip) :=
  match rows with
  | [] => Ok slides
  | row :: rest =>
      if Z.of_nat (length slides) >=? max_slides cfg then Ok slides
      else if row_skipped cfg row then collect_slides cfg fonts logo_rgba rest slides
      else
        let image_file := row_image_file cfg row in
        if negb (PyStr.truthy image_file)
        then collect_slides cfg fonts logo_rgba rest slides
        else if looks_like_barcode cfg image_file
        then collect_slides cfg fonts logo_rgba rest slides
        else
          clip <- row_clip cfg fonts logo_rgba row ;;
          collect_slides cfg fonts logo_rgba rest (slides ++ [clip])
  end.

(** Line 381: [CompositeVideoClip(slides).set_duration(per*len(slides))].
    No slide is given a start time. *)
Definition assemble_video (per : Q) (slides : list VideoClip) : VideoClip :=
  set_duration (composite slides) (per * inject_Z (Z.of_nat (length slides))).

(** Lines 387 to 391: the audio attached to a video of duration
    [video_duration]. A track of duration 0 divides by zero;
    [concatenate_audioclips] refuses an empty list and [subclip] a clip
    that ends before it starts. *)
Definition fit_audio (audio : AudioClip) (video_duration : Q) : result AudioClip :=
  audio <-
    (if negb (Qle_bool video_duration (audio_duration audio))
     then
       if Qeq_bool (audio_duration audio) 0 then Raise ZeroDivisionError
       else
         let loops := math_ceil (video_duration / audio_duration audio) in
         if loops <=? 0 then Raise ValueError
         else Ok (ConcatenatedAudio (repeat audio (Z.to_nat loops)))
     else Ok audio) ;;
  if negb (Qle_bool 0 (audio_duration audio)) then Raise ValueError
  else Ok (VolumeX (AudioSubclip audio 0 video_duration) (9 # 10)).

Inductive RunResult :=
| SysExit (code : Z) (message : string)
| Uncaught (e : exn)
| WriteVideofile (video : VideoClip) (out : string) (fps : Z) (bitrate : string).

Definition no_slides_message : string :=
  "No slides to render. Check your Excel and image paths.".

(** Is the optional path set and present on disk? *)
Definition configured (p : option string) : bool :=
  PyStr.truthy (PyStr.or_empty p) && path_exists (PyStr.or_empty p).

(** The logo step of [main]: [None] when [Image.open] raises on a logo
    file that exists, [Some None] when no logo is configured or present. *)
Definition load_logo (cfg : Config) : option (option Image) :=
  if configured (logo_path cfg)
  then match Image_open (PyStr.or_empty (logo_path cfg)) with
       | Some im => Some (Some im)
       | None => None
       end
  else Some None.

Definition main_fonts (cfg : Config) : Fonts :=
  {| fonts_title := ensure_font (PyStr.or_empty (font_title_path cfg)) true;
     fonts_body := ensure_font (PyStr.or_empty (font_body_path cfg)) false |}.

(** The audio step of [main] on the assembled [video]. *)
Definition attach_music (cfg : Config) (video : VideoClip) : result VideoClip :=
  if configured (music_path cfg)
  then match audio_file_duration (PyStr.or_empty (music_path cfg)) with
       | None => Raise OSError
       | Some d =>
           let audio := AudioFile (PyStr.or_empty (music_path cfg)) d in
           audio <- fit_audio audio (default 0%Q (clip_duration video)) ;;
           Ok (set_audio video audio)
       end
  else Ok video.

(** [main], from the loaded configuration and the rows of the sheet. *)
Definition main (cfg : Config) (df : list Row) : RunResult :=
  let per := duration_per_slide cfg in
  let fonts := main_fonts cfg in
  match load_logo cfg with
  | None => Uncaught OSError
  | Some logo_rgba =>
      match collect_slides cfg fonts logo_rgba df [] with
      | Raise e => Uncaught e
      | Ok [] => SysExit 1 no_slides_message
      | Ok slides =>
          match attach_music cfg (assemble_video per slides) with
          | Raise e => Uncaught e
          | Ok video =>
              WriteVideofile video (default "outputs/final_video.mp4" (output_path cfg))
                (fps cfg) (default "4M" (target_bitrate cfg))
          end
      end
  end.

(** A row that passes the three filters of the loop. *)
Definition row_eligible (cfg : Config) (row : Row) : bool :=
  negb (row_skipped cfg row)
  && PyStr.truthy (row_image_file cfg row)
  && negb (looks_like_barcode cfg (row_image_file cfg row)).

End Program.

(** ** The layout rules as the specification words them *)

Module Spec.

(** Greedy line-fill of [words] within [limit], measured by [width]:
    a word joins the current line when the extended line fits, otherwise
    the current line is flushed and the word starts the next one. *)
Fixpoint greedy_fill (width : string -> Z) (limit : Z) (words : list string)
    (cur : string) : list string :=
  match words with
  | [] => if PyStr.truthy cur then [cur] else []
  | w :: rest =>
      let extended := if PyStr.truthy cur then cur +:+ " " +:+ w else w in
      if width extended <=? limit
      then greedy_fill width limit rest extended
      else (if PyStr.truthy cur then [cur] else []) ++ greedy_fill width limit rest w
  end.

(** The time interval of slide [i] on a sequential timeline. *)
Definition in_slot (per : Q) (i : nat) (t : Q) : bool :=
  Qle_bool (inject_Z (Z.of_nat i) * per) t
  && negb (Qle_bool (inject_Z (Z.of_nat (S i)) * per) t).

(** The slides that a sequential timeline of [n] slides shows at time [t]. *)
Definition sequential_indices (per : Q) (n : nat) (t : Q) : list nat :=
  List.filter (fun i => in_slot per i t) (seq 0 n).

End Spec.

(** ** A concrete run: the front end's configuration on a small sheet *)

Module Demo.

(** [str.upper] on one code point below 256: the letters a to z and the
    accented letters U+00E0 to U+00FE (U+00F7 is the division sign) move
    down by 32 and the sharp s becomes "SS". The micro sign U+00B5 and
    U+00FF, whose capitals lie beyond the range, are left as they are. *)
Definition upper_char (c : ascii) : string :=
  let n := PyStr.ord c in
  if ((97 <=? n) && (n <=? 122)) || ((224 <=? n) && (n <=? 254) && negb (n =? 247))
  then String (PyStr.chr (n - 32)) EmptyString
  else if n =? 223 then "SS"
  else String c EmptyString.

Fixpoint latin1_upper (s : string) : string :=
  match s with
  | EmptyString => EmptyString
  | String c s' => upper_char c +:+ latin1_upper s'
  end.

Definition logo_file : string := "assets/swiggy_instamart_logo.png".
Definition music_file : string := "assets/theme.mp3".

(** No TrueType font loads, so PIL's built-in bitmap font (6 by 11 pixels a
    character) is used throughout; [rembg] is not installed; the logo is a
    1000 by 400 bitmap, the music lasts 10 seconds and two product photos
    exist. *)
Definition runtime : Runtime := {|
  path_exists p := String.eqb p logo_file || String.eqb p music_file;
  Image_open p :=
    if String.eqb p logo_file then Some (Bitmap p 1000 400)
    else if String.eqb p "images/almonds.png" then Some (Bitmap p 1200 900)
    else if String.eqb p "images/muesli.png" then Some (Bitmap p 1080 720)
    else None;
  truetype _ := false;
  textsize _ s := (6 * Z.of_nat (String.length s), 11);
  textsize_wide _ txt := (6 * Z.of_nat (length txt), 11);
  rembg_remove := None;
  audio_file_duration p := if String.eqb p music_file then Some (10 # 1) else None;
  str_upper := latin1_upper
|}.

(** The configuration the front end writes, for a given frame, split,
    padding and logo corner. *)
Definition front_end_cfg (W H : Z) (ratio : float) (pad : Z) (corner : string) : Config := {|
  frame_width := W;
  frame_height := H;
  fps := 30;
  duration_per_slide := 5 # 1;
  max_slides := 5;
  left_panel_ratio := ratio;
  background_color := "#FFFFFF";
  bullet_color_hex := "#78185A";
  font_title_path := Some "";
  font_body_path := Some "";
  title_font_size_px := 55;
  body_font_size_px := 50;
  title_case_style := Some "standard";
  text_max_words_per_bullet := 4;
  text_line_spacing_px := 10;
  edge_padding_px := pad;
  safe_area_inset_px := pad;
  logo_path := Some logo_file;
  logo_position := corner;
  logo_margin_px := 28;
  remove_bg := Some true;
  skip_if_blurry := Some true;
  upscale_to_min_side_px := Some 1000;
  barcode_filename_keywords := Some ["barcode"; "qr"; "code128"];
  images_folder := "images";
  skip_col := Some "skip";
  image_col := "image_filename";
  title_col := "title";
  bullets_cols := ["bullet1"; "bullet2"; "bullet3"];
  dimensions_col := Some "dimensions_text";
  capacity_col := Some "capacity_text";
  dimension_marking := Some true;
  music_path := Some music_file;
  output_path := Some "outputs/final_video.mp4";
  target_bitrate := Some "4M"
|}.

Definition cfg : Config := front_end_cfg 1920 960 0.5 48 "top_right".

(** The same run with the logo asked for in the top-left corner. *)
Definition cfg_top_left : Config := front_end_cfg 1920 960 0.5 48 "top_left".

(** A frame 1001 pixels wide with three quarters given to the panel. *)
Definition cfg_1001 : Config := front_end_cfg 1001 500 0.75 20 "top_right".

(** A narrow frame: the panel is 200 pixels wide, the padding 20. *)
Definition cfg_narrow : Config := front_end_cfg 400 200 0.5 20 "top_right".

(** A frame 720 pixels wide with a split of 0.7. *)
Definition cfg_720 : Config := front_end_cfg 720 360 0.7 20 "top_right".

Definition product_row (image title bullet : string) : Row :=
  <[ "image_filename" := CStr image ]>
  (<[ "title" := CStr title ]>
  (<[ "bullet1" := CStr bullet ]> ∅)).

Definition almonds : Row := product_row "almonds.png" "Roasted Almonds" "Crunchy and fresh".

(** A row whose photograph is not on disk. *)
Definition granola : Row := product_row "granola.png" "Almond Granola" "Slow baked".

Definition skipped_row : Row := <[ "skip" := CBool true ]> almonds.

Definition barcode_row : Row := product_row "barcode_1.png" "Label" "".

(** The same two products with the bullet cell left empty. *)
Definition almonds_plain : Row := product_row "almonds.png" "Roasted Almonds" "".

Definition granola_plain : Row := product_row "granola.png" "Almond Granola" "".

Definition two_plain_rows : list Row := [almonds_plain; granola_plain].

Definition two_rows : list Row := [almonds; granola].

Definition five_rows : list Row := [almonds; granola; almonds; granola; almonds].

Definition fonts : Fonts := @main_fonts runtime cfg.

Definition logo : Image := Bitmap logo_file 1000 400.

End Demo.

(** ** Observations used by the statements *)

(** The [str] texts drawn on an image, oldest first, each with its
    position. *)
Fixpoint drawn_texts (im : Image) : list (Z * Z * string) :=
  match im with
  | Bitmap _ _ _ => []
  | New _ _ _ => []
  | DrawText im' xy txt _ _ => drawn_texts im' ++ [(xy, txt)]
  | DrawCodepoints im' _ _ _ _ => drawn_texts im'
  | DrawRectangle im' _ _ _ _ _ => drawn_texts im'
  | Resize im' _ _ => drawn_texts im'
  | AlphaComposite im' _ _ => drawn_texts im'
  end.

(** Every text drawn on an image, as code points, oldest first, each with
    its position. *)
Fixpoint drawn_items (im : Image) : list (Z * Z * list Z) :=
  match im with
  | Bitmap _ _ _ => []
  | New _ _ _ => []
  | DrawText im' xy txt _ _ => drawn_items im' ++ [(xy, codepoints txt)]
  | DrawCodepoints im' xy txt _ _ => drawn_items im' ++ [(xy, txt)]
  | DrawRectangle im' _ _ _ _ _ => drawn_items im'
  | Resize im' _ _ => drawn_items im'
  | AlphaComposite im' _ _ => drawn_items im'
  end.

(** The width [draw.textsize] reports for [s] in [font]. *)
Definition rendered_width {RT : Runtime} (font : Font) (s : string) : Z :=
  fst (textsize (Some font) s).

(** A line of wrapped text: it starts with a non-space and [rstrip] keeps it. *)
Definition is_line (s : string) : Prop :=
  exists c r, s = String c r /\ PyStr.is_space c = false /\ PyStr.rstrip s = s.

(** The exit status of the process for each way [main] can end. *)
Definition exit_status (r : RunResult) : Z :=
  match r with
  | SysExit code _ => code
  | Uncaught _ => 1
  | WriteVideofile _ _ _ _ => 0
  end.

(** Did the run reach [write_videofile]? *)
Definition video_written (r : RunResult) : bool :=
  match r with
  | WriteVideofile _ _ _ _ => true
  | _ => false
  end.

(** ** Further scenarios for the statements *)

Module Scenario.

(** One hexadecimal digit, in either case. *)
Definition hex_char (upper : bool) (d : Z) : ascii :=
  if d <? 10 then PyStr.chr (48 + d)
  else if upper then PyStr.chr (55 + d) else PyStr.chr (87 + d).

(** A byte as two hexadecimal digits. *)
Definition hex_byte (upper : bool) (n : Z) : string :=
  String (hex_char upper (n / 16)) (String (hex_char upper (n mod 16)) EmptyString).

Fixpoint hashes (n : nat) : string :=
  match n with
  | O => EmptyString
  | S n' => String "#" (hashes n')
  end.

(** The demo configuration with another keyword list. *)
Definition with_keywords (cfg : Config) (keywords : list string) : Config := {|
  frame_width := frame_width cfg;
  frame_height := frame_height cfg;
  fps := fps cfg;
  duration_per_slide := duration_per_slide cfg;
  max_slides := max_slides cfg;
  left_panel_ratio := left_panel_ratio cfg;
  background_color := background_color cfg;
  bullet_color_hex := bullet_color_hex cfg;
  font_title_path := font_title_path cfg;
  font_body_path := font_body_path cfg;
  title_font_size_px := title_font_size_px cfg;
  body_font_size_px := body_font_size_px cfg;
  title_case_style := title_case_style cfg;
  text_max_words_per_bullet := text_max_words_per_bullet cfg;
  text_line_spacing_px := text_line_spacing_px cfg;
  edge_padding_px := edge_padding_px cfg;
  safe_area_inset_px := safe_area_inset_px cfg;
  logo_path := logo_path cfg;
  logo_position := logo_position cfg;
  logo_margin_px := logo_margin_px cfg;
  remove_bg := remove_bg cfg;
  skip_if_blurry := skip_if_blurry cfg;
  upscale_to_min_side_px := upscale_to_min_side_px cfg;
  barcode_filename_keywords := Some keywords;
  images_folder := images_folder cfg;
  skip_col := skip_col cfg;
  image_col := image_col cfg;
  title_col := title_col cfg;
  bullets_cols := bullets_cols cfg;
  dimensions_col := dimensions_col cfg;
  capacity_col := capacity_col cfg;
  dimension_marking := dimension_marking cfg;
  music_path := music_path cfg;
  output_path := output_path cfg;
  target_bitrate := target_bitrate cfg
|}.

(** A photograph whose name carries the keyword in upper case. *)
Definition qr_row : Row := Demo.product_row "QR_Label.PNG" "Label" "".

(** The text panel of the first product when its bullet cell is empty. *)
Definition almonds_panel : Image :=
  DrawText (New 960 960 (255, 255, 255, 0)) (48, 48) "Roasted Almonds" (0, 0, 0, 255)
    (Some DefaultBitmapFont).

(** A clip as lines 259 to 281 make them: an image shown for five
    seconds. *)
Definition still (source : string) : VideoClip :=
  set_duration (image_clip (Bitmap source 1920 960)) (5 # 1).

Definition two_stills : list VideoClip := [still "slide0.png"; still "slide1.png"].

Definition five_stills : list VideoClip :=
  map still ["slide0.png"; "slide1.png"; "slide2.png"; "slide3.png"; "slide4.png"].

(** The configuration with another music path. *)
Definition with_music (cfg : Config) (music : option string) : Config := {|
  frame_width := frame_width cfg;
  frame_height := frame_height cfg;
  fps := fps cfg;
  duration_per_slide := duration_per_slide cfg;
  max_slides := max_slides cfg;
  left_panel_ratio := left_panel_ratio cfg;
  background_color := background_color cfg;
  bullet_color_hex := bullet_color_hex cfg;
  font_title_path := font_title_path cfg;
  font_body_path := font_body_path cfg;
  title_font_size_px := title_font_size_px cfg;
  body_font_size_px := body_font_size_px cfg;
  title_case_style := title_case_style cfg;
  text_max_words_per_bullet := text_max_words_per_bullet cfg;
  text_line_spacing_px := text_line_spacing_px cfg;
  edge_padding_px := edge_padding_px cfg;
  safe_area_inset_px := safe_area_inset_px cfg;
  logo_path := logo_path cfg;
  logo_position := logo_position cfg;
  logo_margin_px := logo_margin_px cfg;
  remove_bg := remove_bg cfg;
  skip_if_blurry := skip_if_blurry cfg;
  upscale_to_min_side_px := upscale_to_min_side_px cfg;
  barcode_filename_keywords := barcode_filename_keywords cfg;
  images_folder := images_folder cfg;
  skip_col := skip_col cfg;
  image_col := image_col cfg;
  title_col := title_col cfg;
  bullets_cols := bullets_cols cfg;
  dimensions_col := dimensions_col cfg;
  capacity_col := capacity_col cfg;
  dimension_marking := dimension_marking cfg;
  music_path := music;
  output_path := output_path cfg;
  target_bitrate := target_bitrate cfg
|}.

(** A machine like the one of the demonstration, but on which the two
    DejaVu fonts load: a character is half as wide as the font is high. *)
Definition dejavu : Runtime := {|
  path_exists := @path_exists Demo.runtime;
  Image_open := @Image_open Demo.runtime;
  truetype p := String.eqb p "DejaVuSans.ttf" || String.eqb p "DejaVuSans-Bold.ttf";
  textsize font s :=
    match font with
    | Some (FreeTypeFont _ px) => (px / 2 * Z.of_nat (String.length s), px)
    | _ => (6 * Z.of_nat (String.length s), 11)
    end;
  textsize_wide font txt :=
    match font with
    | Some (FreeTypeFont _ px) => (px / 2 * Z.of_nat (length txt), px)
    | _ => (6 * Z.of_nat (length txt), 11)
    end;
  rembg_remove := None;
  audio_file_duration := @audio_file_duration Demo.runtime;
  str_upper := Demo.latin1_upper
|}.

(** The locals of the slide of the first product (no bullet) in the
    demonstration. *)
Definition almonds_locals : SlideLocals :=
  let photo := Resize (Bitmap "images/almonds.png" 1200 900) 1333 1000 in
  let frame := New 1920 960 (255, 255, 255, 255) in
  {| panel_w := 960;
     panel_h := 960;
     bg := frame;
     panel_im := almonds_panel;
     im := photo;
     avail_w := 864;
     avail_h := 864;
     new_size := (864, 648);
     im_resized := Resize photo 864 648;
     rx := 1008;
     ry := 156;
     composed :=
       AlphaComposite
         (AlphaComposite (AlphaComposite frame almonds_panel (0, 0))
            (Resize photo 864 648) (1008, 156))
         (Resize Demo.logo 345 138) (1547, 28) |}.

End Scenario.

(** ** The front end ([streamlit_app.py]) *)

Module Streamlit.

(** The two options of the "Frame Ratio" select box. *)
Inductive FrameRatio := Ratio_2_1 | Ratio_16_9.

(** What the sidebar and the upload widgets deliver. *)
Record Settings := {
  frame_ratio : FrameRatio;
  fps_slider : Z;
  duration_slider : Z;
  max_slides_slider : Z;
  bitrate : string;
  remove_bg_box : bool;
  skip_blurry_box : bool;
  logo_uploaded : bool;
  music_name : option string
}.

(** The configuration written to [config.yaml], with [work] the temporary
    working directory. *)
Definition build_cfg (work : string) (s : Settings) : Config := {|
  frame_width := 1920;
  frame_height := match frame_ratio s with Ratio_2_1 => 960 | Ratio_16_9 => 1080 end;
  fps := fps_slider s;
  duration_per_slide := inject_Z (duration_slider s);
  max_slides := max_slides_slider s;
  left_panel_ratio := 0.5;
  background_color := "#FFFFFF";
  bullet_color_hex := "#78185A";
  font_title_path := Some "";
  font_body_path := Some "";
  title_font_size_px := 55;
  body_font_size_px := 50;
  title_case_style := Some "standard";
  text_max_words_per_bullet := 4;
  text_line_spacing_px := 10;
  edge_padding_px := 48;
  safe_area_inset_px := 48;
  logo_path :=
    Some (if logo_uploaded s
          then PyPath.join (PyPath.join work "assets") "swiggy_instamart_logo.png"
          else "");
  logo_position := "top_right";
  logo_margin_px := 28;
  remove_bg := Some (remove_bg_box s);
  skip_if_blurry := Some (skip_blurry_box s);
  upscale_to_min_side_px := Some 1000;
  barcode_filename_keywords := Some ["barcode"; "qr"; "code128"];
  images_folder := PyPath.join (PyPath.join work "inputs") "images";
  skip_col := Some "skip";
  image_col := "image_filename";
  title_col := "title";
  bullets_cols := ["bullet1"; "bullet2"; "bullet3"];
  dimensions_col := Some "dimensions_text";
  capacity_col := Some "capacity_text";
  dimension_marking := Some true;
  music_path :=
    Some (match music_name s with
          | Some name => PyPath.join (PyPath.join work "assets") name
          | None => ""
          end);
  output_path := Some (PyPath.join (PyPath.join work "outputs") "final_video.mp4");
  target_bitrate := Some (bitrate s)
|}.

(** What the page shows after "Render Video": the error box when the
    renderer's exit status is not 0, the download of the output file
    otherwise. *)
Inductive Page :=
| RenderFailed
| Download (out_path : string).

Definition render {RT : Runtime} (work : string) (s : Settings) (df : list Row) : Page :=
  let cfg := build_cfg work s in
  if negb (exit_status (main cfg df) =? 0) then RenderFailed
  else Download (default "" (output_path cfg)).

Definition demo_settings : Settings := {|
  frame_ratio := Ratio_2_1;
  fps_slider := 30;
  duration_slider := 5;
  max_slides_slider := 5;
  bitrate := "4M";
  remove_bg_box := true;
  skip_blurry_box := true;
  logo_uploaded := false;
  music_name := None
|}.

End Streamlit.

(** * Properties *)

(** ** Strings *)

Module PyStrFacts.
Import PyStr.

Lemma is_token_cons c t :
  is_space c = false -> no_space t = true -> is_token (String c t) = true.
Proof.
  intros Hc Ht. unfold is_token. simpl. rewrite Hc, Ht. reflexivity.
Qed.

Lemma is_token_inv t :
  is_token t = true ->
  exists c r, t = String c r /\ is_space c = false /\ no_space r = true.
Proof.
  destruct t as [|c r]; [discriminate|].
  unfold is_token. simpl. intros H.
  apply andb_true_iff in H as [Hc Hr].
  exists c, r. repeat split; [|exact Hr].
  now apply negb_true_iff in Hc.
Qed.

Lemma is_token_no_space t : is_token t = true -> no_space t = true.
Proof. unfold is_token. intros H. now apply andb_true_iff in H as [_ H]. Qed.

(** Every element that [split] returns is a token. *)
Lemma split_tokens s : Forall (fun t => is_token t = true) (split s).
Proof.
  induction s as [|c s IH]; simpl; [constructor|].
  destruct (is_space c) eqn:Hc; [exact IH|].
  destruct (at_boundary s).
  - constructor; [|exact IH]. now apply is_token_cons.
  - destruct (split s) as [|t ts]; constructor.
    + now apply is_token_cons.
    + constructor.
    + apply is_token_cons; [exact Hc|].
      apply is_token_no_space. now inversion IH.
    + now inversion IH.
Qed.

(** A whitespace-free run followed by a space is split off whole. *)
Lemma split_run_space t r :
  is_token t = true -> split (t +:+ String " " r) = t :: split r.
Proof.
  intros Ht. apply is_token_inv in Ht as (c & u & -> & Hc & Hu).
  revert c Hc. induction u as [|d u IH]; intros c Hc; simpl.
  - rewrite Hc. reflexivity.
  - simpl in Hu. apply andb_true_iff in Hu as [Hd Hu].
    apply negb_true_iff in Hd. rewrite Hc, Hd. simpl.
    specialize (IH Hu d Hd). simpl in IH. rewrite Hd in IH.
    rewrite IH. reflexivity.
Qed.

Lemma split_run t : is_token t = true -> split t = [t].
Proof.
  intros Ht. apply is_token_inv in Ht as (c & u & -> & Hc & Hu).
  revert c Hc. induction u as [|d u IH]; intros c Hc; simpl.
  - rewrite Hc. reflexivity.
  - simpl in Hu. apply andb_true_iff in Hu as [Hd Hu].
    apply negb_true_iff in Hd. rewrite Hc, Hd. simpl.
    specialize (IH Hu d Hd). simpl in IH. rewrite Hd in IH.
    rewrite IH. reflexivity.
Qed.

(** Joining tokens with one space and splitting again gives them back. *)
Lemma split_join l :
  Forall (fun t => is_token t = true) l -> split (join " " l) = l.
Proof.
  induction 1 as [|t l Ht Hl IH]; [reflexivity|].
  destruct l as [|u l].
  - simpl. now apply split_run.
  - change (join " " (t :: u :: l)) with (t +:+ String " " (join " " (u :: l))).
    rewrite split_run_space by exact Ht. now rewrite IH.
Qed.

Lemma slice_to_nonneg {A} (l : list A) k : 0 <= k -> slice_to l k = take (Z.to_nat k) l.
Proof. intros Hk. unfold slice_to. destruct (Z.ltb_spec k 0); [lia|reflexivity]. Qed.

Lemma slice_to_length {A} (l : list A) k :
  0 <= k -> Z.of_nat (length (slice_to l k)) <= k.
Proof.
  intros Hk. rewrite slice_to_nonneg by exact Hk.
  rewrite length_take. lia.
Qed.

Lemma slice_to_Forall {A} (P : A -> Prop) (l : list A) k :
  Forall P l -> Forall P (slice_to l k).
Proof. intros H. unfold slice_to. destruct (k <? 0); now apply Forall_take. Qed.

Lemma slice_to_idem {A} (l : list A) k :
  0 <= k -> slice_to (slice_to l k) k = slice_to l k.
Proof.
  intros Hk. rewrite !slice_to_nonneg by exact Hk.
  rewrite take_take. f_equal. lia.
Qed.

Lemma prefix_of_app k r : prefix_of k (k +:+ r) = true.
Proof.
  induction k as [|c k IH]; [reflexivity|].
  simpl. now rewrite Ascii.eqb_refl.
Qed.

Lemma append_assoc (a b c : string) : (a +:+ b) +:+ c = a +:+ (b +:+ c).
Proof.
  induction a as [|x a IH]; [reflexivity|].
  change (String x ((a +:+ b) +:+ c) = String x (a +:+ (b +:+ c))).
  now f_equal.
Qed.

Lemma prefix_of_refl k : prefix_of k k = true.
Proof. induction k as [|c k IH]; [reflexivity|]. simpl. now rewrite Ascii.eqb_refl. Qed.

Lemma contains_refl k : contains k k = true.
Proof. destruct k; simpl; [reflexivity|]. now rewrite Ascii.eqb_refl, prefix_of_refl. Qed.

(** A string contains each of its suffixes. *)
Lemma contains_app_r a k : contains k (a +:+ k) = true.
Proof.
  induction a as [|c a IH]; simpl.
  - apply contains_refl.
  - rewrite IH. apply orb_true_r.
Qed.

End PyStrFacts.

(** ** Bullet clamping *)

(** [clamp_words] returns the kept tokens themselves: splitting its result
    gives the slice of the input's tokens. *)
Lemma split_clamp_words (s : option string) (k : Z) :
  PyStr.split (clamp_words s k) = PyStr.slice_to (PyStr.split (PyStr.or_empty s)) k.
Proof.
  unfold clamp_words. apply PyStrFacts.split_join.
  apply PyStrFacts.slice_to_Forall, PyStrFacts.split_tokens.
Qed.

(** C6, as amended: for every string [s] (or [None]) and every word limit
    [k >= 0], the clamped result has at most [k] whitespace-delimited
    tokens, and clamping the result again with the same [k] returns it
    unchanged. *)
Theorem clamp_words_bounded_idempotent (s : option string) (k : Z) :
  0 <= k ->
  Z.of_nat (length (PyStr.split (clamp_words s k))) <= k
  /\ clamp_words (Some (clamp_words s k)) k = clamp_words s k.
Proof.
  intros Hk. split.
  - rewrite split_clamp_words. now apply PyStrFacts.slice_to_length.
  - unfold clamp_words at 1. simpl PyStr.or_empty.
    rewrite split_clamp_words, PyStrFacts.slice_to_idem by exact Hk.
    reflexivity.
Qed.

Lemma clamp_words_bounded_idempotent_witness :
  Z.of_nat (length (PyStr.split (clamp_words (Some "  fresh  and crunchy   daily snack ") 4))) <= 4
  /\ clamp_words (Some (clamp_words (Some "  fresh  and crunchy   daily snack ") 4)) 4
     = clamp_words (Some "  fresh  and crunchy   daily snack ") 4.
Proof.
  apply (clamp_words_bounded_idempotent (Some "  fresh  and crunchy   daily snack ") 4).
  lia.
Defined.

(** C6, as stated, fails for a negative limit: the slice [toks[:-1]] drops
    the last token only, so ["a b c"] clamped at [-1] is ["a b"] (two tokens,
    more than [-1]) and clamping again gives ["a"]. *)
Lemma clamp_words_negative_limit :
  ~ (Z.of_nat (length (PyStr.split (clamp_words (Some "a b c") (-1)))) <= -1
     /\ clamp_words (Some (clamp_words (Some "a b c") (-1))) (-1)
        = clamp_words (Some "a b c") (-1)).
Proof.
  intros [H _]. vm_compute in H. apply H. reflexivity.
Qed.

Example clamp_words_examples :
  clamp_words (Some "  fresh  and crunchy   daily snack ") 4 = "fresh and crunchy daily"
  /\ clamp_words None 4 = ""
  /\ clamp_words (Some "a b c") 0 = ""
  /\ clamp_words (Some "a b c") (-1) = "a b"
  /\ clamp_words (Some "a b") (-1) = "a".
Proof. repeat split. Qed.

(** ** Rational arithmetic *)

Section Rationals.
Local Open Scope Q_scope.

Lemma Qsquare_nonneg (x : Q) : 0 <= x * x.
Proof.
  destruct (Qlt_le_dec x 0) as [H|H].
  - assert (E : x * x == (- x) * (- x)) by ring.
    rewrite E. apply Qmult_le_0_compat; lra.
  - apply Qmult_le_0_compat; lra.
Qed.

(** The cube is monotone: [b^3 - a^3 = (b - a) ((a + b/2)^2 + 3/4 b^2)]. *)
Lemma cube_mono (a b : Q) : a <= b -> a * a * a <= b * b * b.
Proof.
  intros H.
  assert (H1 : 0 <= (b - a) * ((a + b * (1 # 2)) * (a + b * (1 # 2)))).
  { apply Qmult_le_0_compat; [lra|]. apply Qsquare_nonneg. }
  assert (H2 : 0 <= (b - a) * (b * b)).
  { apply Qmult_le_0_compat; [lra|]. apply Qsquare_nonneg. }
  assert (E : b * b * b ==
              a * a * a + (b - a) * ((a + b * (1 # 2)) * (a + b * (1 # 2)))
              + (3 # 4) * ((b - a) * (b * b))) by ring.
  rewrite E. lra.
Qed.

Lemma Qle_bool_false (a b : Q) : Qle_bool a b = false <-> b < a.
Proof.
  split; intros H.
  - apply Qnot_le_lt. intros C. apply Qle_bool_iff in C. congruence.
  - destruct (Qle_bool a b) eqn:E; [|reflexivity]. apply Qle_bool_iff in E. lra.
Qed.

Lemma Qmin_le_l (a b : Q) : Qmin a b <= a.
Proof.
  unfold Qmin. destruct (Qle_bool a b) eqn:E; [lra|].
  apply Qle_bool_false in E. lra.
Qed.

Lemma Qmin_le_r (a b : Q) : Qmin a b <= b.
Proof.
  unfold Qmin. destruct (Qle_bool a b) eqn:E; [|lra].
  now apply Qle_bool_iff in E.
Qed.

Lemma Qmax_idem (a : Q) : Qmax a a = a.
Proof. unfold Qmax. now destruct (Qle_bool a a). Qed.

End Rationals.

(** ** Entrance motion *)

Section Easing.
Local Open Scope Q_scope.

(** Before the end of the entrance window the curve is the cubic in
    [t * 10/6 - 1]. *)
Lemma ease_out_cubic_early (t : Q) :
  Qle_bool (6 # 10) t = false ->
  ease_out_cubic t ==
  (t * (10 # 6) - 1) * (t * (10 # 6) - 1) * (t * (10 # 6) - 1) + 1.
Proof.
  intros H. unfold ease_out_cubic, ease_out_cubic_d. rewrite H.
  assert (E : t / (6 # 10) == t * (10 # 6)) by (unfold Qdiv; reflexivity).
  rewrite E. reflexivity.
Qed.

Lemma ease_out_cubic_late (t : Q) : 6 # 10 <= t -> ease_out_cubic t == 1.
Proof.
  intros Ht. unfold ease_out_cubic, ease_out_cubic_d.
  apply Qle_bool_iff in Ht. rewrite Ht. reflexivity.
Qed.

(** The curve never decreases, on the whole time axis. *)
Lemma ease_out_cubic_mono (s t : Q) : s <= t -> ease_out_cubic s <= ease_out_cubic t.
Proof.
  intros Hst.
  destruct (Qle_bool (6 # 10) s) eqn:Es.
  - apply Qle_bool_iff in Es.
    rewrite (ease_out_cubic_late s Es), (ease_out_cubic_late t) by lra. lra.
  - rewrite (ease_out_cubic_early s Es). apply Qle_bool_false in Es.
    destruct (Qle_bool (6 # 10) t) eqn:Et.
    + apply Qle_bool_iff in Et. rewrite (ease_out_cubic_late t Et).
      pose proof (cube_mono (s * (10 # 6) - 1) 0) as C. lra.
    + rewrite (ease_out_cubic_early t Et).
      pose proof (cube_mono (s * (10 # 6) - 1) (t * (10 # 6) - 1)) as C. lra.
Qed.

(** C4: [progress(0) = 0], [progress(0.6) = 1], [progress] is non-decreasing
    on [[0, 0.6]], and [progress(t) = 1] for every [t >= 0.6], where
    [progress] is [ease_out_cubic] with its default window of 0.6 s. *)
Theorem ease_out_cubic_progress :
  ease_out_cubic 0 == 0
  /\ ease_out_cubic (6 # 10) == 1
  /\ (forall s t : Q, 0 <= s -> s <= t -> t <= 6 # 10 ->
        ease_out_cubic s <= ease_out_cubic t)
  /\ (forall t : Q, 6 # 10 <= t -> ease_out_cubic t == 1).
Proof.
  split; [reflexivity|]. split; [reflexivity|]. split.
  - intros s t _ Hst _. now apply ease_out_cubic_mono.
  - exact ease_out_cubic_late.
Qed.

(** The progress stays between 0 and 1 from time 0 on. *)
Lemma ease_out_cubic_range (t : Q) : 0 <= t -> 0 <= ease_out_cubic t <= 1.
Proof.
  intros Ht. split.
  - assert (E : ease_out_cubic 0 == 0) by reflexivity.
    rewrite <- E. now apply ease_out_cubic_mono.
  - destruct (Qlt_le_dec t (6 # 10)) as [H|H].
    + rewrite <- (ease_out_cubic_late (6 # 10)) by lra.
      apply ease_out_cubic_mono. lra.
    + rewrite (ease_out_cubic_late t H). lra.
Qed.

End Easing.

(** ** Frame geometry *)

(** On a non-negative float, [int] is the floor. *)
Lemma py_int_floor (x : Q) : (0 <= x)%Q -> py_int x = Qfloor x.
Proof.
  destruct x as [n d]. unfold py_int, Qfloor, Qle. simpl. intros H.
  apply Z.quot_div_nonneg; lia.
Qed.

(** [int] never moves away from zero. *)
Lemma py_int_le (x : Q) : (0 <= x)%Q -> (inject_Z (py_int x) <= x)%Q.
Proof. intros H. rewrite py_int_floor by exact H. apply Qfloor_le. Qed.


Lemma py_int_inject (z : Z) : py_int (inject_Z z) = z.
Proof. unfold py_int. simpl. apply Z.quot_1_r. Qed.

(** [int] respects the equality of rationals on the non-negative side. *)
Lemma py_int_nonneg_compat (x y : Q) : (0 <= x)%Q -> (x == y)%Q -> py_int x = py_int y.
Proof.
  intros Hx E. rewrite !py_int_floor by (rewrite <- ?E; exact Hx).
  now rewrite E.
Qed.

(** ** Calls that can raise *)

Lemma bind_Ok {A B} (r : result A) (k : A -> result B) (b : B) :
  bind r k = Ok b -> exists a, r = Ok a /\ k a = Ok b.
Proof. destruct r as [a|e]; [eauto|discriminate]. Qed.

Lemma bind_Raise {A B} (r : result A) (k : A -> result B) (e : exn) :
  r = Raise e -> bind r k = Raise e.
Proof. now intros ->. Qed.

(** ** Truncation of binary64 numbers *)

(** [int()] is the truncation toward zero of the number the float stands
    for. *)
Lemma int_of_float_value (f : float) (z : Z) :
  int_of_float f = Ok z -> z = py_int (float_value f).
Proof.
  unfold int_of_float, float_value, py_int.
  destruct (Prim2SF f) as [s|s| |s m e]; try discriminate.
  - now intros [= <-].
  - intros [= <-]. destruct (Z.leb_spec 0 e) as [He|He].
    + destruct s; simpl; rewrite ?Z.quot_1_r; reflexivity.
    + assert (Hp : 0 < 2 ^ (- e)) by (apply Z.pow_pos_nonneg; lia).
      destruct s; cbn [Qopp Qnum Qden]; rewrite Z2Pos.id by exact Hp.
      * rewrite Z.quot_opp_l by lia.
        now rewrite Z.quot_div_nonneg by lia.
      * now rewrite Z.quot_div_nonneg by lia.
Qed.

(** ** The panel split *)

Section Geometry.
Context {RT : Runtime}.

Lemma draw_title_lines_size cfg font lines st :
  size (fst (fold_left (draw_title_line cfg font) lines st)) = size (fst st).
Proof.
  revert st. induction lines as [|l lines IH]; intros [canvas y]; [reflexivity|].
  simpl fold_left. rewrite IH. reflexivity.
Qed.

Lemma draw_bullet_size cfg color font st b st' :
  draw_bullet cfg color font st b = Ok st' -> size (fst st') = size (fst st).
Proof.
  destruct st as [canvas y]. unfold draw_bullet, draw_codepoints, textsize_codepoints.
  destruct (negb (PyStr.truthy b)); [now intros [= <-]|].
  destruct (encodable (Some font) arrow); [|discriminate]. cbn [bind].
  destruct (textsize_wide (Some font) arrow). now intros [= <-].
Qed.

Lemma draw_bullets_size cfg color font bullets st st' :
  draw_bullets cfg color font bullets st = Ok st' -> size (fst st') = size (fst st).
Proof.
  revert st. induction bullets as [|b bullets IH]; intros st H; simpl in H.
  - now injection H as <-.
  - apply bind_Ok in H as (st1 & H1 & H2).
    rewrite (IH _ H2). now apply draw_bullet_size in H1.
Qed.

(** The canvas keeps the size it was created with. *)
Lemma render_text_panel_size title bullets cfg fonts panel :
  render_text_panel title bullets cfg fonts = Ok panel ->
  exists pw, panel_width cfg = Ok pw /\ size panel = (pw, frame_height cfg).
Proof.
  unfold render_text_panel. intros H.
  apply bind_Ok in H as (pw & Hpw & H). exists pw. split; [exact Hpw|].
  apply bind_Ok in H as (color & _ & H).
  apply bind_Ok in H as (canvas & Hc & H).
  apply bind_Ok in H as (title_font & _ & H).
  apply bind_Ok in H as (body_font & _ & H).
  match type of H with context [fold_left (draw_title_line ?c ?f) ?ls ?st] =>
    pose proof (draw_title_lines_size c f ls st) as Ht;
    destruct (fold_left (draw_title_line c f) ls st) as [canvas' y]
  end.
  apply bind_Ok in H as (st & Hb & H). injection H as <-.
  apply draw_bullets_size in Hb. rewrite Hb. simpl fst in *. rewrite Ht.
  unfold Image_new in Hc. destruct (_ || _); [discriminate|]. now injection Hc as <-.
Qed.

(** What the locals of a slide are, read off the calls that did not
    raise. *)
Lemma slide_locals_fields img_path title bullets cfg fonts logo_rgba L :
  slide_locals img_path title bullets cfg fonts logo_rgba = Ok L ->
  panel_width cfg = Ok (panel_w L)
  /\ render_text_panel title bullets cfg fonts = Ok (panel_im L)
  /\ upscale_min_side
       (let im := open_product_image img_path in
        if default true (remove_bg cfg) then remove_bg_if_possible im else im)
       (default 1000 (upscale_to_min_side_px cfg)) = Ok (im L)
  /\ avail_w L = frame_width cfg - panel_w L - safe_area_inset_px cfg * 2
  /\ avail_h L = frame_height cfg - safe_area_inset_px cfg * 2
  /\ Image_resize (im L) (fst (new_size L)) (snd (new_size L)) = Ok (im_resized L)
  /\ rx L = panel_w L + (avail_w L - fst (new_size L)) / 2 + safe_area_inset_px cfg
  /\ ry L = (frame_height cfg - snd (new_size L)) / 2.
Proof.
  unfold slide_locals. intros H.
  apply bind_Ok in H as (pw & Hpw & H).
  apply bind_Ok in H as (color & Hcolor & H).
  apply bind_Ok in H as (bg0 & Hbg & H).
  apply bind_Ok in H as (panel & Hpanel & H).
  apply bind_Ok in H as (im0 & Him & H).
  apply bind_Ok in H as (sw & Hsw & H).
  apply bind_Ok in H as (sh & Hsh & H).
  apply bind_Ok in H as (nw & Hnw & H).
  apply bind_Ok in H as (nh & Hnh & H).
  apply bind_Ok in H as (resized & Hres & H).
  apply bind_Ok in H as (c1 & Hc1 & H).
  apply bind_Ok in H as (c2 & Hc2 & H).
  apply bind_Ok in H as (c3 & Hc3 & H).
  injection H as <-. cbn [panel_w panel_im bg im avail_w avail_h new_size im_resized rx ry fst snd].
  repeat (split; [assumption || reflexivity|]). reflexivity.
Qed.

(** C2, as amended: the rendered text panel is [int(W * r)] pixels wide,
    that is the binary64 product of the frame width and the split,
    truncated toward zero (not rounded), and as high as the frame; the
    product image's available width is
    [W - panel_width - 2 * safe_area_inset]. *)
Theorem panel_geometry (cfg : Config) (img_path title : string)
    (bullets : list string) (fonts : Fonts) (logo_rgba : option Image) (panel : Image) :
  render_text_panel title bullets cfg fonts = Ok panel ->
  exists Wf : float,
    float_of_int (frame_width cfg) = Ok Wf
    /\ int_of_float (Wf * left_panel_ratio cfg) = Ok (fst (size panel))
    /\ fst (size panel) = py_int (float_value (Wf * left_panel_ratio cfg))
    /\ snd (size panel) = frame_height cfg
    /\ forall L,
         slide_locals img_path title bullets cfg fonts logo_rgba = Ok L ->
         size (panel_im L) = (panel_w L, frame_height cfg)
         /\ panel_w L = fst (size panel)
         /\ avail_w L
            = frame_width cfg - fst (size panel) - 2 * safe_area_inset_px cfg.
Proof.
  intros H. destruct (render_text_panel_size _ _ _ _ _ H) as (pw & Hpw & Hsize).
  pose proof Hpw as Hpw'. unfold panel_width, scale_side, int_times_float in Hpw'.
  apply bind_Ok in Hpw' as (p & Hp & Hint).
  apply bind_Ok in Hp as (Wf & HW & Hp). injection Hp as <-.
  exists Wf. rewrite Hsize. cbn [fst snd].
  split; [exact HW|]. split; [exact Hint|].
  split; [now apply int_of_float_value|]. split; [reflexivity|].
  intros L HL. destruct (slide_locals_fields _ _ _ _ _ _ _ HL) as (Hw & Hp & _ & Ha & _).
  rewrite H in Hp. injection Hp as Hp. rewrite Hpw in Hw. injection Hw as Hw.
  rewrite <- Hp, <- Hw, Hsize, Ha, <- Hw. split; [reflexivity|]. split; [reflexivity|]. lia.
Qed.

End Geometry.

Lemma panel_geometry_witness :
  @render_text_panel Demo.runtime "Roasted Almonds" [] Demo.cfg Demo.fonts
  = Ok Scenario.almonds_panel
  /\ exists Wf : float,
       float_of_int (frame_width Demo.cfg) = Ok Wf
       /\ int_of_float (Wf * left_panel_ratio Demo.cfg) = Ok (fst (size Scenario.almonds_panel))
       /\ fst (size Scenario.almonds_panel)
          = py_int (float_value (Wf * left_panel_ratio Demo.cfg))
       /\ snd (size Scenario.almonds_panel) = frame_height Demo.cfg
       /\ forall L,
            @slide_locals Demo.runtime "images/almonds.png" "Roasted Almonds" [] Demo.cfg
              Demo.fonts (Some Demo.logo) = Ok L ->
            size (panel_im L) = (panel_w L, frame_height Demo.cfg)
            /\ panel_w L = fst (size Scenario.almonds_panel)
            /\ avail_w L
               = frame_width Demo.cfg - fst (size Scenario.almonds_panel)
                 - 2 * safe_area_inset_px Demo.cfg.
Proof.
  split; [reflexivity|].
  apply (@panel_geometry Demo.runtime Demo.cfg "images/almonds.png" "Roasted Almonds" []
           Demo.fonts (Some Demo.logo) Scenario.almonds_panel).
  reflexivity.
Defined.

(** C2, as stated, fails: on a frame 1001 pixels wide with a split of 0.75
    the product is 750.75, the panel is 750 pixels wide and the rounded
    product is 751. *)
Lemma panel_width_is_not_rounded :
  ~ (forall panel,
       @render_text_panel Demo.runtime "Roasted Almonds" [] Demo.cfg_1001 Demo.fonts = Ok panel ->
       fst (size panel)
       = py_round (inject_Z (frame_width Demo.cfg_1001)
                   * float_value (left_panel_ratio Demo.cfg_1001))).
Proof.
  intros H. specialize (H _ eq_refl). vm_compute in H. discriminate.
Qed.

(** The panel widths of three frames. At 1001 by 0.75 the product 750.75 is
    exact. At 720 by 0.7 the split is the binary64 number next below 0.7
    and the product is the one next below 504: the panel is 503 pixels
    wide although 720 times seven tenths is 504. *)
Example panel_width_examples :
  panel_width Demo.cfg = Ok 960
  /\ panel_width Demo.cfg_1001 = Ok 750
  /\ (inject_Z 1001 * float_value (left_panel_ratio Demo.cfg_1001) == 3003 # 4)%Q
  /\ py_round (3003 # 4) = 751
  /\ panel_width Demo.cfg_720 = Ok 503
  /\ (inject_Z 720 * (7 # 10) == 504)%Q
  /\ (float_value (left_panel_ratio Demo.cfg_720) < 7 # 10)%Q.
Proof. repeat split. Qed.

(** ** Word wrapping *)

Module WrapFacts.
Import PyStr.

Lemma rstrip_no_space t : no_space t = true -> rstrip t = t.
Proof.
  induction t as [|c t IH]; [reflexivity|]. simpl. intros H.
  apply andb_true_iff in H as [Hc Ht]. apply negb_true_iff in Hc.
  rewrite (IH Ht). destruct t; [now rewrite Hc|reflexivity].
Qed.

Lemma token_is_line t : is_token t = true -> is_line t.
Proof.
  intros Ht. pose proof (PyStrFacts.is_token_no_space t Ht) as Hn.
  apply PyStrFacts.is_token_inv in Ht as (c & r & -> & Hc & Hr).
  exists c, r. repeat split; [exact Hc|]. now apply rstrip_no_space.
Qed.

(** [rstrip] leaves alone what ends in a non-empty part it leaves alone. *)
Lemma rstrip_app a b : truthy b = true -> rstrip b = b -> rstrip (a +:+ b) = a +:+ b.
Proof.
  intros Hb Eb. induction a as [|c a IH]; [exact Eb|].
  change (rstrip (String c (a +:+ b)) = String c (a +:+ b)).
  simpl. rewrite IH. destruct (a +:+ b) eqn:E; [|reflexivity].
  destruct a, b; simpl in *; discriminate.
Qed.

(** The first word of a line: [("" + " " + w).strip()] is [w]. *)
Lemma strip_first_word w : is_token w = true -> strip ("" +:+ " " +:+ w) = w.
Proof.
  intros Ht. destruct (token_is_line w Ht) as (c & r & -> & Hc & Hr).
  unfold strip. simpl lstrip. rewrite Hc. exact Hr.
Qed.

(** A later word: [strip] has nothing to remove from [cur + " " + w]. *)
Lemma strip_extended cur w :
  is_line cur -> is_token w = true ->
  strip (cur +:+ " " +:+ w) = cur +:+ " " +:+ w /\ is_line (cur +:+ " " +:+ w).
Proof.
  intros (c & r & -> & Hc & Hr) Ht.
  assert (E : rstrip (String c r +:+ " " +:+ w) = String c r +:+ " " +:+ w).
  { apply rstrip_app; [reflexivity|].
    destruct (token_is_line w Ht) as (d & u & -> & Hd & Hu).
    apply (rstrip_app " "); [reflexivity|exact Hu]. }
  split.
  - unfold strip. simpl lstrip. rewrite Hc. exact E.
  - exists c, (r +:+ " " +:+ w). repeat split; [exact Hc|exact E].
Qed.

End WrapFacts.

Section Wrap.
Context {RT : Runtime}.
Import PyStr.

(** The loop of [wrap_text] is the greedy line-fill, with the limit
    [max_w - 2 * pad]. *)
Lemma wrap_loop_greedy font pad max_w words cur lines :
  Forall (fun t => is_token t = true) words ->
  cur = EmptyString \/ is_line cur ->
  wrap_loop font pad max_w words cur lines
  = lines ++ Spec.greedy_fill (rendered_width font) (max_w - pad * 2) words cur.
Proof.
  intros Hw. revert cur lines.
  induction Hw as [|w words Ht Hw IH]; intros cur lines Hcur; simpl.
  - destruct (truthy cur); [reflexivity|now rewrite app_nil_r].
  - assert (E : strip (cur +:+ " " +:+ w) = (if truthy cur then cur +:+ " " +:+ w else w)
                /\ is_line (strip (cur +:+ " " +:+ w))).
    { destruct Hcur as [->|Hl].
      - rewrite WrapFacts.strip_first_word by exact Ht.
        split; [reflexivity|now apply WrapFacts.token_is_line].
      - destruct (WrapFacts.strip_extended cur w Hl Ht) as [E L]. rewrite E.
        destruct Hl as (c & r & -> & _). split; [reflexivity|exact L]. }
    destruct E as [E L]. rewrite E in *.
    fold (rendered_width font (if truthy cur then cur +:+ " " +:+ w else w)).
    destruct (_ <=? _).
    + apply IH. now right.
    + rewrite IH by (right; now apply WrapFacts.token_is_line).
      destruct (truthy cur); [now rewrite <- app_assoc|reflexivity].
Qed.

(** [wrap_text] called with [max_w] fills lines up to [max_w - 2 * pad]. *)
Lemma wrap_text_greedy pad txt font max_w :
  wrap_text pad txt font max_w
  = Spec.greedy_fill (rendered_width font) (max_w - 2 * pad) (split txt) EmptyString.
Proof.
  unfold wrap_text. rewrite wrap_loop_greedy.
  - simpl. f_equal. lia.
  - apply PyStrFacts.split_tokens.
  - now left.
Qed.

(** A text of one word is one line, whatever its width. *)
Lemma wrap_text_single_word pad w font max_w :
  is_token w = true -> wrap_text pad w font max_w = [w].
Proof.
  intros Ht. rewrite wrap_text_greedy, PyStrFacts.split_run by exact Ht.
  simpl. destruct (_ <=? _); simpl; destruct w; try reflexivity; discriminate.
Qed.

End Wrap.

(** C5 at a failing input: a panel 200 pixels wide with a padding of 20
    leaves 160 pixels between the paddings, and the title "Crunchy Almond
    Granola" is 132 pixels wide in the built-in font, so the greedy fill
    within [panel_width - 2 * edge_padding] keeps it on one line;
    [wrap_text], called with [max_w = panel_w - 2 * pad], takes [2 * pad]
    off again and breaks the title before "Granola". *)
Theorem wrap_text_subtracts_padding_twice :
  panel_width Demo.cfg_narrow = Ok 200
  /\ edge_padding_px Demo.cfg_narrow = 20
  /\ @rendered_width Demo.runtime DefaultBitmapFont "Crunchy Almond Granola" = 132
  /\ Spec.greedy_fill (@rendered_width Demo.runtime DefaultBitmapFont) (200 - 2 * 20)
       (PyStr.split "Crunchy Almond Granola") "" = ["Crunchy Almond Granola"]
  /\ @wrap_text Demo.runtime 20 "Crunchy Almond Granola" DefaultBitmapFont (200 - 2 * 20)
     = ["Crunchy Almond"; "Granola"]
  /\ result_map drawn_texts
       (@render_text_panel Demo.runtime "Crunchy Almond Granola" [] Demo.cfg_narrow Demo.fonts)
     = Ok [((20, 20), "Crunchy Almond"); ((20, 41), "Granola")].
Proof. repeat split. Qed.

(** ** The row loop *)

Section Run.
Context {RT : Runtime}.

Lemma str_in_In s l : str_in s l = true <-> In s l.
Proof.
  unfold str_in. rewrite existsb_exists. split.
  - intros (x & Hx & E). apply String.eqb_eq in E. now subst.
  - intros H. exists s. split; [exact H|apply String.eqb_refl].
Qed.

(** At the cap the loop breaks. *)
Lemma collect_slides_full cfg fonts logo_rgba rows slides :
  max_slides cfg <= Z.of_nat (length slides) ->
  collect_slides cfg fonts logo_rgba rows slides = Ok slides.
Proof.
  intros H. destruct rows as [|row rest]; [reflexivity|]. simpl.
  now destruct (Z.geb_spec (Z.of_nat (length slides)) (max_slides cfg)); [|lia].
Qed.

(** One turn of the loop below the cap. *)
Lemma collect_slides_step cfg fonts logo_rgba row rest slides :
  Z.of_nat (length slides) < max_slides cfg ->
  collect_slides cfg fonts logo_rgba (row :: rest) slides
  = if row_eligible cfg row
    then clip <- row_clip cfg fonts logo_rgba row ;;
         collect_slides cfg fonts logo_rgba rest (slides ++ [clip])
    else collect_slides cfg fonts logo_rgba rest slides.
Proof.
  intros H. simpl. destruct (Z.geb_spec (Z.of_nat (length slides)) (max_slides cfg)); [lia|].
  unfold row_eligible.
  destruct (row_skipped cfg row); [reflexivity|]. simpl.
  destruct (PyStr.truthy (row_image_file cfg row)); [|reflexivity]. simpl.
  destruct (looks_like_barcode cfg (row_image_file cfg row)); reflexivity.
Qed.

(** A row that fails a filter leaves the loop's result as it was. *)
Lemma collect_slides_ineligible cfg fonts logo_rgba row rest slides :
  row_eligible cfg row = false ->
  collect_slides cfg fonts logo_rgba (row :: rest) slides
  = collect_slides cfg fonts logo_rgba rest slides.
Proof.
  intros H. destruct (Z.lt_ge_cases (Z.of_nat (length slides)) (max_slides cfg)) as [Hlt|Hge].
  - rewrite collect_slides_step by exact Hlt. now rewrite H.
  - now rewrite !collect_slides_full by exact Hge.
Qed.

(** C10: a row is excluded as skipped exactly when the string form of its
    skip field, stripped and lower-cased, is one of "1", "true", "yes", "y";
    an absent field and the values "0", "false", "no" do not skip; below the
    cap, a skipped row adds no slide, and a row that is not skipped goes on
    to the image filters and, past them, to the slide builder. *)
Theorem skip_flag_decides_exclusion (cfg : Config) (row : Row) :
  (row_skipped cfg row = true <->
   In (PyStr.lower (PyStr.strip (str (row_get row (default "skip" (skip_col cfg))))))
      ["1"; "true"; "yes"; "y"])
  /\ (row !! default "skip" (skip_col cfg) = None -> row_skipped cfg row = false)
  /\ (forall v, In v ["0"; "false"; "no"] ->
        row !! default "skip" (skip_col cfg) = Some (CStr v) -> row_skipped cfg row = false)
  /\ (forall fonts logo_rgba rest slides,
        Z.of_nat (length slides) < max_slides cfg ->
        collect_slides cfg fonts logo_rgba (row :: rest) slides
        = if row_skipped cfg row
          then collect_slides cfg fonts logo_rgba rest slides
          else if PyStr.truthy (row_image_file cfg row)
                  && negb (looks_like_barcode cfg (row_image_file cfg row))
               then clip <- row_clip cfg fonts logo_rgba row ;;
                    collect_slides cfg fonts logo_rgba rest (slides ++ [clip])
               else collect_slides cfg fonts logo_rgba rest slides).
Proof.
  split; [apply str_in_In|]. split; [|split].
  - intros H. unfold row_skipped, row_get. rewrite H. reflexivity.
  - intros v Hv H. unfold row_skipped, row_get. rewrite H. simpl in Hv.
    destruct Hv as [<-|[<-|[<-|[]]]]; reflexivity.
  - intros fonts logo_rgba rest slides H.
    rewrite collect_slides_step by exact H. unfold row_eligible.
    destruct (row_skipped cfg row); reflexivity.
Qed.

(** *** Slide building *)

(** The constructor call at the end of [build_slide_clip] raises whatever
    the locals are: no call of [build_slide_clip] returns. *)
Lemma build_slide_clip_raises img_path title bullets cfg fonts logo_rgba :
  exists e, build_slide_clip img_path title bullets cfg fonts logo_rgba = Raise e.
Proof.
  unfold build_slide_clip.
  destruct (slide_locals img_path title bullets cfg fonts logo_rgba) as [L|e]; simpl; eauto.
Qed.

(** When the locals are computed, the exception is the [TypeError] of the
    constructor. *)
Lemma build_slide_clip_TypeError img_path title bullets cfg fonts logo_rgba L :
  slide_locals img_path title bullets cfg fonts logo_rgba = Ok L ->
  build_slide_clip img_path title bullets cfg fonts logo_rgba = Raise TypeError.
Proof. unfold build_slide_clip. now intros ->. Qed.

Lemma row_clip_raises cfg fonts logo_rgba row :
  exists e,
    build_slide_clip (PyPath.join (images_folder cfg) (row_image_file cfg row))
      (PyStr.strip (str (row_get row (title_col cfg)))) (row_bullets cfg row)
      cfg fonts logo_rgba = Raise e
    /\ row_clip cfg fonts logo_rgba row = Raise e.
Proof.
  unfold row_clip.
  destruct (build_slide_clip_raises
              (PyPath.join (images_folder cfg) (row_image_file cfg row))
              (PyStr.strip (str (row_get row (title_col cfg)))) (row_bullets cfg row)
              cfg fonts logo_rgba) as [e E].
  exists e. rewrite E. split; reflexivity.
Qed.

(** The loop ends without a slide when no eligible row is left under the
    cap, and with the exception of the slide builder at the first eligible
    row otherwise. *)
Lemma collect_slides_outcome cfg fonts logo_rgba rows slides :
  match take (Z.to_nat (max_slides cfg - Z.of_nat (length slides)))
             (List.filter (row_eligible cfg) rows) with
  | [] => collect_slides cfg fonts logo_rgba rows slides = Ok slides
  | row :: _ =>
      exists e, row_clip cfg fonts logo_rgba row = Raise e
                /\ collect_slides cfg fonts logo_rgba rows slides = Raise e
  end.
Proof.
  destruct (Z.lt_ge_cases (Z.of_nat (length slides)) (max_slides cfg)) as [Hlt|Hge].
  - replace (Z.to_nat (max_slides cfg - Z.of_nat (length slides)))
      with (S (Z.to_nat (max_slides cfg - Z.of_nat (length slides) - 1))) by lia.
    induction rows as [|row rest IH]; [reflexivity|].
    simpl List.filter. destruct (row_eligible cfg row) eqn:He.
    + cbn [take]. destruct (row_clip_raises cfg fonts logo_rgba row) as (e & _ & E).
      exists e. split; [exact E|].
      rewrite collect_slides_step by exact Hlt. now rewrite He, E.
    + rewrite collect_slides_ineligible by exact He. exact IH.
  - replace (Z.to_nat (max_slides cfg - Z.of_nat (length slides))) with 0%nat by lia.
    rewrite take_0. now apply collect_slides_full.
Qed.

(** The three ways [main] ends. *)
Lemma main_cases cfg df :
  match load_logo cfg with
  | None => main cfg df = Uncaught OSError
  | Some logo_rgba =>
      match take (Z.to_nat (max_slides cfg)) (List.filter (row_eligible cfg) df) with
      | [] => main cfg df = SysExit 1 no_slides_message
      | row :: _ =>
          exists e, row_clip cfg (main_fonts cfg) logo_rgba row = Raise e
                    /\ main cfg df = Uncaught e
      end
  end.
Proof.
  unfold main. destruct (load_logo cfg) as [logo_rgba|]; [|reflexivity].
  pose proof (collect_slides_outcome cfg (main_fonts cfg) logo_rgba df []) as H.
  simpl length in H. rewrite Z.sub_0_r in H.
  destruct (take _ _) as [|row rest].
  - now rewrite H.
  - destruct H as (e & E1 & E2). exists e. split; [exact E1|]. now rewrite E2.
Qed.

(** No run writes a video, and every run ends with status 1. *)
Lemma main_never_writes cfg df :
  video_written (main cfg df) = false /\ exit_status (main cfg df) = 1.
Proof.
  pose proof (main_cases cfg df) as H.
  destruct (load_logo cfg) as [logo_rgba|]; [|now rewrite H].
  destruct (take _ _) as [|row rest]; [now rewrite H|].
  destruct H as (e & _ & ->). split; reflexivity.
Qed.

(** C7: when no row is left after the filters (skip flag, empty image
    reference, barcode keyword) and the [max_slides] cap, [main] prints the
    "No slides to render" message and exits with status 1 without writing a
    video. The logo step comes before the loop and is assumed to succeed. *)
Theorem no_slides_is_fatal (cfg : Config) (df : list Row) (logo_rgba : option Image) :
  load_logo cfg = Some logo_rgba ->
  take (Z.to_nat (max_slides cfg)) (List.filter (row_eligible cfg) df) = [] ->
  main cfg df = SysExit 1 no_slides_message
  /\ exit_status (main cfg df) <> 0
  /\ video_written (main cfg df) = false
  /\ PyStr.contains "no slides to render" (PyStr.lower no_slides_message) = true.
Proof.
  intros Hlogo Hzero.
  assert (E : main cfg df = SysExit 1 no_slides_message).
  { pose proof (main_cases cfg df) as H. now rewrite Hlogo, Hzero in H. }
  rewrite E. repeat split. simpl. lia.
Qed.

(** *** Timing of the slides *)

Lemma Qle_bool_compat_l (a b t : Q) : (a == b)%Q -> Qle_bool a t = Qle_bool b t.
Proof.
  intros E. destruct (Qle_bool b t) eqn:Hb.
  - apply Qle_bool_iff. apply Qle_bool_iff in Hb. now rewrite E.
  - apply Qle_bool_false. apply Qle_bool_false in Hb. now rewrite E.
Qed.

(** A clip that starts at 0 and lasts [per] is on screen exactly during
    [[0, per)]. *)
Lemma is_playing_from_zero (c : VideoClip) (per t : Q) :
  clip_start c = 0%Q -> clip_duration c = Some per ->
  is_playing c t = Qle_bool 0 t && negb (Qle_bool per t).
Proof.
  intros Hs Hd. unfold is_playing, clip_end. rewrite Hs, Hd.
  now rewrite (Qle_bool_compat_l (0 + per) per t) by ring.
Qed.

(** Every entry of the list of lines 282 to 290 starts at 0 and lasts one
    slide duration. *)
Lemma slide_layers_times cfg L logo_rgba (c : VideoClip) :
  In (Some c) (slide_layers cfg L logo_rgba) ->
  clip_start c = 0%Q /\ clip_duration c = Some (duration_per_slide cfg).
Proof.
  unfold slide_layers. intros [H|[H|[H|[H|[]]]]].
  - injection H as <-. split; reflexivity.
  - injection H as <-. split; reflexivity.
  - injection H as <-. split; reflexivity.
  - destruct logo_rgba; [|discriminate]. injection H as <-. split; reflexivity.
Qed.

Lemma playing_from cs (per t : Q) (k : nat) :
  Forall (fun c => clip_start c = 0%Q /\ clip_duration c = Some per) cs ->
  map fst (List.filter (fun ic : nat * VideoClip => is_playing (snd ic) t)
             (combine (seq k (length cs)) cs))
  = if Qle_bool 0 t && negb (Qle_bool per t) then seq k (length cs) else [].
Proof.
  intros H. revert k. induction H as [|c cs [Hs Hd] _ IH]; intros k.
  - now destruct (_ && _).
  - cbn [length seq combine List.filter snd].
    rewrite (is_playing_from_zero c per t Hs Hd).
    destruct (Qle_bool 0 t && negb (Qle_bool per t)) eqn:E.
    + cbn [map fst]. now rewrite IH.
    + now rewrite IH.
Qed.

(** Line 381 on slides that start at 0 and last [per] each: the video
    lasts [per * n], and all the slides are on screen together during
    [[0, per)] and none afterwards. *)
Lemma assemble_video_overlays (per : Q) (slides : list VideoClip) (t : Q) :
  Forall (fun c => clip_start c = 0%Q /\ clip_duration c = Some per) slides ->
  clip_layers (assemble_video per slides) = slides
  /\ clip_duration (assemble_video per slides)
     = Some (per * inject_Z (Z.of_nat (length slides)))%Q
  /\ playing_indices (assemble_video per slides) t
     = if Qle_bool 0 t && negb (Qle_bool per t) then seq 0 (length slides) else [].
Proof.
  intros H. split; [reflexivity|]. split; [reflexivity|].
  unfold playing_indices. cbn [assemble_video set_duration composite clip_layers].
  now apply playing_from.
Qed.

(** *** Background music *)










(** *** Missing product images *)

Lemma eligible_row_survives cfg df (row : Row) :
  In row df -> row_eligible cfg row = true -> 0 < max_slides cfg ->
  take (Z.to_nat (max_slides cfg)) (List.filter (row_eligible cfg) df) <> [].
Proof.
  intros Hin He Hmax.
  assert (Hf : In row (List.filter (row_eligible cfg) df))
    by (apply filter_In; now split).
  destruct (List.filter (row_eligible cfg) df) as [|r rs]; [destruct Hf|].
  replace (Z.to_nat (max_slides cfg)) with (S (Z.to_nat (max_slides cfg - 1))) by lia.
  discriminate.
Qed.

(** C9, what the code does instead: when the photograph of an eligible
    row cannot be opened, the 800 by 800 gray canvas with the text "Missing
    image:" and the file name takes its place, as claimed; but the slide
    builder raises all the same, as it does on every slide, and [main] ends
    with an uncaught exception, exit status 1 and no video, however many
    other rows are valid. *)
Theorem missing_image_slide_raises (cfg : Config) (df : list Row) (row : Row)
    (logo_rgba : option Image) :
  load_logo cfg = Some logo_rgba ->
  0 < max_slides cfg ->
  In row df ->
  row_eligible cfg row = true ->
  Image_open (PyPath.join (images_folder cfg) (row_image_file cfg row)) = None ->
  let img_path := PyPath.join (images_folder cfg) (row_image_file cfg row) in
  let label := "Missing image:" +:+ newline +:+ PyPath.name img_path in
  open_product_image img_path
  = DrawText (New 800 800 (230, 230, 230, 255)) (40, 40) label (80, 80, 80, 255) None
  /\ size (open_product_image img_path) = (800, 800)
  /\ PyStr.contains (PyPath.name img_path) label = true
  /\ (forall title bullets fonts,
        (exists e, build_slide_clip img_path title bullets cfg fonts logo_rgba = Raise e)
        /\ forall L,
             slide_locals img_path title bullets cfg fonts logo_rgba = Ok L ->
             upscale_min_side
               (if default true (remove_bg cfg)
                then remove_bg_if_possible (placeholder img_path)
                else placeholder img_path)
               (default 1000 (upscale_to_min_side_px cfg)) = Ok (im L)
             /\ build_slide_clip img_path title bullets cfg fonts logo_rgba = Raise TypeError)
  /\ (exists e, main cfg df = Uncaught e)
  /\ video_written (main cfg df) = false
  /\ exit_status (main cfg df) = 1.
Proof.
  intros Hlogo Hmax Hin He Hopen img_path label.
  assert (Hp : open_product_image img_path
               = DrawText (New 800 800 (230, 230, 230, 255)) (40, 40) label
                   (80, 80, 80, 255) None).
  { unfold open_product_image. subst img_path. now rewrite Hopen. }
  rewrite Hp. split; [reflexivity|]. split; [reflexivity|]. split; [|split; [|split]].
  - unfold label. rewrite <- PyStrFacts.append_assoc. apply PyStrFacts.contains_app_r.
  - intros title bullets fonts. split; [apply build_slide_clip_raises|].
    intros L HL. split; [|now apply (build_slide_clip_TypeError _ _ _ _ _ _ L)].
    destruct (slide_locals_fields _ _ _ _ _ _ _ HL) as (_ & _ & Hu & _).
    fold img_path in Hu. rewrite Hp in Hu. exact Hu.
  - pose proof (main_cases cfg df) as H. rewrite Hlogo in H.
    pose proof (eligible_row_survives cfg df row Hin He Hmax) as Hne.
    destruct (take _ _) as [|r rs]; [congruence|].
    destruct H as (e & _ & E). eauto.
  - apply main_never_writes.
Qed.

End Run.

(** ** Logo *)

Section Logo.
Local Open Scope Q_scope.

Lemma Qeq_bool_false (a b : Q) : Qeq_bool a b = false -> ~ a == b.
Proof. intros H E. apply Qeq_bool_iff in E. congruence. Qed.

(** [paste_logo] caps the logo at 18% of the frame width and never
    enlarges it. *)
Lemma scaled_logo_capped (W : Z) (logo_im : Image) :
  (0 <= W)%Z -> (0 < fst (size logo_im))%Z -> (0 <= snd (size logo_im))%Z ->
  inject_Z (fst (size (scaled_logo W logo_im))) <= inject_Z W * (18 # 100)
  /\ (fst (size (scaled_logo W logo_im)) <= fst (size logo_im))%Z
  /\ (snd (size (scaled_logo W logo_im)) <= snd (size logo_im))%Z.
Proof.
  intros HW Hlw Hlh. unfold scaled_logo.
  destruct (size logo_im) as [lw lh] eqn:Es. simpl in Hlw, Hlh.
  assert (Hlw' : 0 < inject_Z lw) by (rewrite (Zlt_Qlt 0 lw) in Hlw; exact Hlw).
  assert (Hlh' : 0 <= inject_Z lh) by (rewrite (Zle_Qle 0 lh) in Hlh; exact Hlh).
  assert (HW' : 0 <= inject_Z W) by (rewrite (Zle_Qle 0 W) in HW; exact HW).
  set (x := inject_Z W * (18 # 100) / inject_Z lw).
  assert (Hx : x * inject_Z lw == inject_Z W * (18 # 100)).
  { unfold x. field. lra. }
  assert (Hx0 : 0 <= x).
  { unfold x. apply Qle_shift_div_l; [exact Hlw'|]. lra. }
  pose proof (Qmin_le_l 1 x) as H1. pose proof (Qmin_le_r 1 x) as H2.
  fold x in H1, H2 |- *. unfold logo_scale. fold x.
  assert (Hs0 : 0 <= Qmin 1 x).
  { unfold Qmin. destruct (Qle_bool 1 x); lra. }
  destruct (Qeq_bool (Qmin 1 x) 1) eqn:E; simpl negb; cbv iota.
  - apply Qeq_bool_iff in E. rewrite Es. simpl. split; [|lia].
    rewrite <- Hx. rewrite <- (Qmult_1_l (inject_Z lw)) at 1.
    apply Qmult_le_compat_r; lra.
  - simpl size. simpl fst. simpl snd.
    assert (Hw : inject_Z lw * Qmin 1 x <= inject_Z lw * 1)
      by (rewrite !(Qmult_comm (inject_Z lw)); apply Qmult_le_compat_r; lra).
    assert (Hh : inject_Z lh * Qmin 1 x <= inject_Z lh * 1)
      by (rewrite !(Qmult_comm (inject_Z lh)); apply Qmult_le_compat_r; lra).
    assert (Hw0 : 0 <= inject_Z lw * Qmin 1 x) by (apply Qmult_le_0_compat; lra).
    assert (Hh0 : 0 <= inject_Z lh * Qmin 1 x) by (apply Qmult_le_0_compat; lra).
    pose proof (py_int_le _ Hw0) as Pw. pose proof (py_int_le _ Hh0) as Ph.
    split; [|split].
    + assert (inject_Z lw * Qmin 1 x <= inject_Z lw * x)
        by (rewrite !(Qmult_comm (inject_Z lw)); apply Qmult_le_compat_r; lra).
      rewrite (Qmult_comm (inject_Z lw) x), Hx in H. lra.
    + rewrite Zle_Qle. lra.
    + rewrite Zle_Qle. lra.
Qed.

(** The corner: top-right when asked for, top-left otherwise, one margin
    away from both edges. *)
Lemma logo_xy_corner (cfg : Config) (W lw : Z) :
  snd (logo_xy cfg W lw) = logo_margin_px cfg
  /\ (logo_position cfg = "top_right" ->
      (fst (logo_xy cfg W lw) + lw + logo_margin_px cfg = W)%Z)
  /\ (logo_position cfg <> "top_right" -> fst (logo_xy cfg W lw) = logo_margin_px cfg).
Proof.
  unfold logo_xy. split; [reflexivity|]. split; intros H.
  - rewrite H. simpl. lia.
  - apply String.eqb_neq in H. now rewrite H.
Qed.

End Logo.

(** C3 at a failing input: a 1000 by 400 logo on the 1920 pixel frame, asked
    for in the top-left corner, on a slide without bullets. [paste_logo]
    draws it 345 pixels wide at (28, 28), but only on the snapshot
    [composed], which is in none of the four entries handed to
    [CompositeVideoClip]; the logo entry among them carries the logo at its
    full 1000 pixels (18% of the frame is 345.6), at the top-right position
    (892, 28), for the five seconds of the slide. The constructor then
    raises, so that no slide is composed at all. *)
Theorem logo_overlay_is_neither_scaled_nor_positioned :
  let cfg := Demo.cfg_top_left in
  let run := @slide_locals Demo.runtime "images/almonds.png" "Roasted Almonds" [] cfg
               Demo.fonts (Some Demo.logo) in
  let overlay := logo_overlay cfg Demo.logo in
  result_map (fun L => map (option_map clip_image) (slide_layers cfg L (Some Demo.logo))) run
  = result_map (fun L => [Some (Some (bg L)); Some (Some (panel_im L));
                          Some (Some (im_resized L)); Some (Some Demo.logo)]) run
  /\ result_map (fun L => nth 3 (slide_layers cfg L (Some Demo.logo)) None) run
     = result_map (fun _ => Some overlay) run
  /\ result_map composed run
     = result_map
         (fun L => AlphaComposite
                     (AlphaComposite (AlphaComposite (bg L) (panel_im L) (0, 0))
                        (im_resized L) (rx L, ry L))
                     (Resize Demo.logo 345 138) (28, 28)) run
  /\ result_map (fun L => (size (bg L), size (panel_im L), new_size L, (rx L, ry L))) run
     = Ok ((1920, 960), (960, 960), (864, 648), (1008, 156))
  /\ clip_image overlay = Some Demo.logo
  /\ size Demo.logo = (1000, 400)
  /\ (inject_Z (frame_width cfg) * (18 # 100) < inject_Z 1000)%Q
  /\ clip_pos overlay 0%Q = (892, 28)
  /\ clip_pos overlay (5 # 1) = (892, 28)
  /\ (clip_start overlay, clip_end overlay) = (0%Q, Some (5 # 1))
  /\ size (scaled_logo (frame_width cfg) Demo.logo) = (345, 138)
  /\ logo_xy cfg (frame_width cfg) 345 = (28, 28)
  /\ @build_slide_clip Demo.runtime "images/almonds.png" "Roasted Almonds" [] cfg
       Demo.fonts (Some Demo.logo) = Raise TypeError.
Proof.
  cbv zeta. split; [reflexivity|]. split; [reflexivity|]. split; [reflexivity|].
  vm_compute. repeat split.
Qed.

(** In every slide with a logo, the logo entry carries the logo as loaded,
    at the top-right position computed from its original width. *)
Lemma logo_overlay_entry {RT : Runtime} cfg L (logo : Image) (t : Q) :
  nth 3 (slide_layers cfg L (Some logo)) None = Some (logo_overlay cfg logo)
  /\ clip_image (logo_overlay cfg logo) = Some logo
  /\ clip_pos (logo_overlay cfg logo) t
     = (frame_width cfg - fst (size logo) - logo_margin_px cfg, logo_margin_px cfg).
Proof. repeat split. Qed.

(** The rational factor of [scaled_logo] against the binary64 factor of the
    program: the same 345 by 138 for the logo above; for a 360 by 100 logo
    the rounded factor gives a height of 95 where the exact one gives 96. *)
Example logo_sizes_in_binary64 :
  logo_size64 1920 1000 400 = Ok (345, 138)
  /\ size (scaled_logo 1920 Demo.logo) = (345, 138)
  /\ logo_size64 1920 360 100 = Ok (345, 95)
  /\ size (scaled_logo 1920 (Bitmap "logo.png" 360 100)) = (345, 96)
  /\ logo_size64 1920 300 100 = Ok (300, 100)
  /\ size (scaled_logo 1920 (Bitmap "logo.png" 300 100)) = (300, 100).
Proof. vm_compute. repeat split. Qed.

(** ** Timeline *)

(** C1 at a failing input: two eligible rows at 5 seconds a slide. The run
    ends in the slide builder's exception, so no timeline is made. Line 381
    itself, on two clips of 5 seconds, gives a video of 10 seconds in which
    both clips start at 0 and end at 5: at time 0 both are on screen (a
    sequential timeline shows slide 0 only), and from time 5 on neither is
    (a sequential timeline shows slide 1). *)
Theorem slides_are_overlaid_not_sequenced :
  let video := assemble_video (duration_per_slide Demo.cfg) Scenario.two_stills in
  @main Demo.runtime Demo.cfg Demo.two_plain_rows = Uncaught TypeError
  /\ clip_layers video = Scenario.two_stills
  /\ clip_duration video = Some (10 # 1)
  /\ map clip_start (clip_layers video) = [0%Q; 0%Q]
  /\ map clip_end (clip_layers video) = [Some (5 # 1); Some (5 # 1)]
  /\ playing_indices video 0%Q = [0%nat; 1%nat]
  /\ Spec.sequential_indices (5 # 1) 2 0%Q = [0%nat]
  /\ playing_indices video (5 # 1) = []
  /\ Spec.sequential_indices (5 # 1) 2 (5 # 1) = [1%nat]
  /\ playing_indices video (15 # 2) = [].
Proof. cbv zeta. split; [reflexivity|]. vm_compute. repeat split. Qed.

(** ** The statements at concrete runs *)

Lemma no_slides_is_fatal_witness :
  @main Demo.runtime Demo.cfg [Demo.skipped_row; Demo.barcode_row] = SysExit 1 no_slides_message
  /\ exit_status (@main Demo.runtime Demo.cfg [Demo.skipped_row; Demo.barcode_row]) <> 0
  /\ video_written (@main Demo.runtime Demo.cfg [Demo.skipped_row; Demo.barcode_row]) = false
  /\ PyStr.contains "no slides to render" (PyStr.lower no_slides_message) = true.
Proof.
  apply (@no_slides_is_fatal Demo.runtime Demo.cfg [Demo.skipped_row; Demo.barcode_row]
           (Some Demo.logo)); reflexivity.
Defined.

Lemma missing_image_slide_raises_witness :
  let img_path := "images/granola.png" in
  let label := "Missing image:" +:+ newline +:+ "granola.png" in
  @open_product_image Demo.runtime img_path
  = DrawText (New 800 800 (230, 230, 230, 255)) (40, 40) label (80, 80, 80, 255) None
  /\ size (@open_product_image Demo.runtime img_path) = (800, 800)
  /\ PyStr.contains "granola.png" label = true
  /\ (forall title bullets fonts,
        (exists e, @build_slide_clip Demo.runtime img_path title bullets Demo.cfg fonts
                     (Some Demo.logo) = Raise e)
        /\ forall L,
             @slide_locals Demo.runtime img_path title bullets Demo.cfg fonts
               (Some Demo.logo) = Ok L ->
             upscale_min_side (placeholder img_path) 1000 = Ok (im L)
             /\ @build_slide_clip Demo.runtime img_path title bullets Demo.cfg fonts
                  (Some Demo.logo) = Raise TypeError)
  /\ (exists e, @main Demo.runtime Demo.cfg Demo.two_plain_rows = Uncaught e)
  /\ video_written (@main Demo.runtime Demo.cfg Demo.two_plain_rows) = false
  /\ exit_status (@main Demo.runtime Demo.cfg Demo.two_plain_rows) = 1.
Proof.
  apply (@missing_image_slide_raises Demo.runtime Demo.cfg Demo.two_plain_rows
           Demo.granola_plain (Some Demo.logo)).
  - reflexivity.
  - reflexivity.
  - right. left. reflexivity.
  - vm_compute. reflexivity.
  - reflexivity.
Defined.

(** The same run in detail: the two slides without bullets get as far as
    the constructor; with a bullet the built-in font fails on the arrow
    before that. *)
Example missing_image_run :
  result_map im (@slide_locals Demo.runtime "images/granola.png" "Almond Granola" []
                   Demo.cfg Demo.fonts (Some Demo.logo))
  = Ok (Resize (placeholder "images/granola.png") 1000 1000)
  /\ @build_slide_clip Demo.runtime "images/granola.png" "Almond Granola" []
       Demo.cfg Demo.fonts (Some Demo.logo) = Raise TypeError
  /\ @build_slide_clip Demo.runtime "images/almonds.png" "Roasted Almonds" []
       Demo.cfg Demo.fonts (Some Demo.logo) = Raise TypeError
  /\ @main Demo.runtime Demo.cfg Demo.two_plain_rows = Uncaught TypeError
  /\ @main Demo.runtime Demo.cfg [Demo.almonds_plain] = Uncaught TypeError
  /\ @build_slide_clip Demo.runtime "images/granola.png" "Almond Granola" ["Slow baked"]
       Demo.cfg Demo.fonts (Some Demo.logo) = Raise UnicodeEncodeError
  /\ @main Demo.runtime Demo.cfg Demo.two_rows = Uncaught UnicodeEncodeError.
Proof. repeat split. Qed.


(** Without a music file the assembled video is handed on as it is, with
    no audio. *)
Example no_music_no_audio :
  let cfg := Scenario.with_music Demo.cfg None in
  let video := assemble_video (duration_per_slide cfg) Scenario.five_stills in
  @attach_music Demo.runtime cfg video = Ok video /\ clip_audio video = None.
Proof. split; reflexivity. Qed.

(** * Further properties of the program *)

(** ** More on strings *)

Module PyStrMore.
Import PyStr.

Lemma split_cons_nonspace c s :
  is_space c = false -> exists t ts, split (String c s) = t :: ts.
Proof.
  intros Hc. simpl. rewrite Hc.
  destruct (at_boundary s); [eauto|]. destruct (split s); eauto.
Qed.

(** Splitting sees a whitespace character as a break and nothing else. *)
Lemma split_app_ws a c b :
  is_space c = true -> split (a +:+ String c b) = split a ++ split b.
Proof.
  intros Hc. induction a as [|x a IH].
  - simpl. now rewrite Hc.
  - change (String x a +:+ String c b) with (String x (a +:+ String c b)).
    simpl split. destruct (is_space x) eqn:Hx; [exact IH|].
    destruct a as [|y a].
    + simpl. now rewrite Hc.
    + change (at_boundary (String y a +:+ String c b)) with (is_space y).
      change (at_boundary (String y a)) with (is_space y).
      destruct (is_space y) eqn:Hy.
      * rewrite IH. reflexivity.
      * rewrite IH. destruct (split_cons_nonspace y a Hy) as (t & ts & ->).
        reflexivity.
Qed.

(** Joining with one whitespace character and splitting concatenates the
    splits of the parts. *)
Lemma split_join_ws c l :
  is_space c = true ->
  split (join (String c EmptyString) l) = concat (map split l).
Proof.
  intros Hc. induction l as [|t l IH]; [reflexivity|].
  destruct l as [|u l].
  - simpl. now rewrite app_nil_r.
  - change (join (String c "") (t :: u :: l))
      with (t +:+ String c (join (String c "") (u :: l))).
    rewrite split_app_ws by exact Hc. now rewrite IH.
Qed.

Lemma lstrip_idem s : lstrip (lstrip s) = lstrip s.
Proof.
  induction s as [|c s IH]; [reflexivity|]. simpl.
  destruct (is_space c) eqn:Hc; [exact IH|]. simpl. now rewrite Hc.
Qed.

Lemma rstrip_cons_keep c s :
  truthy (rstrip s) = true -> rstrip (String c s) = String c (rstrip s).
Proof. simpl. destruct (rstrip s); [discriminate|reflexivity]. Qed.

Lemma rstrip_idem s : rstrip (rstrip s) = rstrip s.
Proof.
  induction s as [|c s IH]; [reflexivity|]. simpl.
  destruct (rstrip s) as [|d r] eqn:E.
  - destruct (is_space c) eqn:Hc; [reflexivity|]. simpl. now rewrite Hc.
  - rewrite rstrip_cons_keep; rewrite IH; reflexivity.
Qed.

(** [rstrip] keeps a first character that is no whitespace. *)
Lemma rstrip_head c r :
  is_space c = false -> exists r', rstrip (String c r) = String c r'.
Proof.
  intros Hc. simpl. destruct (rstrip r); [rewrite Hc|]; eauto.
Qed.

Lemma lstrip_shape s :
  lstrip s = EmptyString \/ exists c r, lstrip s = String c r /\ is_space c = false.
Proof.
  induction s as [|c s IH]; [now left|]. simpl.
  destruct (is_space c) eqn:Hc; [exact IH|]. right. eauto.
Qed.

(** A stripped string has nothing left to strip on either side. *)
Lemma strip_stable s : lstrip (strip s) = strip s /\ rstrip (strip s) = strip s.
Proof.
  unfold strip. split; [|apply rstrip_idem].
  destruct (lstrip_shape s) as [->|(c & r & -> & Hc)]; [reflexivity|].
  destruct (rstrip_head c r Hc) as [r' ->]. simpl. now rewrite Hc.
Qed.

Lemma strip_idem s : strip (strip s) = strip s.
Proof.
  destruct (strip_stable s) as [Hl Hr].
  unfold strip at 1. now rewrite Hl, Hr.
Qed.

Lemma truthy_join_nonempty sep t l :
  truthy t = true -> truthy (join sep (t :: l)) = true.
Proof.
  intros Ht. destruct t; [discriminate|]. destruct l; reflexivity.
Qed.

End PyStrMore.

(** ** Text helpers *)

Section TextHelpers.
Context {RT : Runtime}.
Import PyStr.

(** Tokens joined by single spaces form a line: no whitespace at either
    end. *)
Lemma join_tokens_line t l :
  Forall (fun t => is_token t = true) (t :: l) -> is_line (join " " (t :: l)).
Proof.
  revert t. induction l as [|u l IH]; intros t Ht.
  - apply WrapFacts.token_is_line. now inversion Ht.
  - inversion Ht as [|? ? Ht1 Ht2]; subst.
    destruct (IH u Ht2) as (c & r & E & Hc & Hr).
    change (join " " (t :: u :: l)) with (t +:+ " " +:+ join " " (u :: l)).
    destruct (WrapFacts.token_is_line t Ht1) as (d & v & -> & Hd & Hv).
    exists d, (v +:+ " " +:+ join " " (u :: l)). split; [reflexivity|]. split; [exact Hd|].
    apply WrapFacts.rstrip_app; [reflexivity|].
    apply (WrapFacts.rstrip_app " "); [now rewrite E|exact Hr].
Qed.

Lemma line_stripped s : is_line s -> strip s = s.
Proof.
  intros (c & r & -> & Hc & Hr). unfold strip. simpl lstrip. now rewrite Hc.
Qed.

(** X1: The clamped bullet consists of the leading tokens of the input, in
    order and unchanged ([toks[:k]], so all but the last [|k|] when [k] is
    negative), separated by single spaces, with no whitespace at either
    end. *)
Theorem clamp_words_keeps_leading_tokens (s : option string) (k : Z) :
  split (clamp_words s k) = slice_to (split (or_empty s)) k
  /\ clamp_words s k = join " " (split (clamp_words s k))
  /\ strip (clamp_words s k) = clamp_words s k.
Proof.
  pose proof (split_clamp_words s k) as E.
  split; [exact E|]. split.
  - rewrite E. reflexivity.
  - unfold clamp_words.
    pose proof (PyStrFacts.slice_to_Forall (fun t => is_token t = true)
                  (split (or_empty s)) k (PyStrFacts.split_tokens _)) as F.
    destruct (slice_to (split (or_empty s)) k) as [|t l]; [reflexivity|].
    apply line_stripped, join_tokens_line, F.
Qed.

(** X2: With any style other than "upper" and "sentence" the title is only
    stripped, and transforming it again changes nothing. *)
Theorem apply_title_case_standard (s : option string) (style : string) :
  style <> "upper" -> style <> "sentence" ->
  apply_title_case s style = strip (or_empty s)
  /\ apply_title_case (Some (apply_title_case s style)) style = apply_title_case s style.
Proof.
  intros Hu Hs. apply String.eqb_neq in Hu, Hs.
  unfold apply_title_case. rewrite !Hu, !Hs. split; [reflexivity|].
  simpl or_empty. apply PyStrMore.strip_idem.
Qed.

(** X3: A missing, empty or blank title gives the empty title in every
    style, provided upper-casing the empty string gives the empty string. *)
Theorem apply_title_case_blank (s : option string) (style : string) :
  str_upper "" = "" ->
  strip (or_empty s) = "" ->
  apply_title_case s style = "".
Proof.
  intros Hup Hs. unfold apply_title_case. rewrite Hs.
  destruct (String.eqb style "upper"); [exact Hup|].
  destruct (String.eqb style "sentence"); reflexivity.
Qed.

(** X4: [ensure_font] only returns a TrueType font that loads: the
    configured one when its path is set, exists and loads, else the DejaVu
    fallback of the asked weight; the built-in bitmap font is returned
    exactly when neither loads. *)
Theorem ensure_font_fallback_chain (path : string) (fallback_bold : bool) :
  let fallback := if fallback_bold then "DejaVuSans-Bold.ttf" else "DejaVuSans.ttf" in
  let usable := truthy path && path_exists path && truetype path in
  (usable = true -> ensure_font path fallback_bold = FreeTypeFont path 10)
  /\ (usable = false -> truetype fallback = true ->
      ensure_font path fallback_bold = FreeTypeFont fallback 10)
  /\ (ensure_font path fallback_bold = DefaultBitmapFont
      <-> usable = false /\ truetype fallback = false)
  /\ (forall p size, ensure_font path fallback_bold = FreeTypeFont p size ->
        truetype p = true /\ size = 10).
Proof.
  cbv zeta. unfold ensure_font.
  set (fallback := if fallback_bold then "DejaVuSans-Bold.ttf" else "DejaVuSans.ttf").
  destruct (truthy path && path_exists path && truetype path) eqn:E.
  - split; [reflexivity|]. split; [discriminate|]. split.
    + split; [discriminate|]. intros [? _]. discriminate.
    + intros p size [= <- <-]. split; [|reflexivity].
      now apply andb_true_iff in E as [_ E].
  - split; [discriminate|].
    destruct (truetype fallback) eqn:Ef.
    + split; [reflexivity|]. split.
      * split; [discriminate|]. intros [_ ?]. discriminate.
      * intros p size [= <- <-]. now split.
    + split; [discriminate|]. split.
      * split; [now split|reflexivity].
      * discriminate.
Qed.

End TextHelpers.

Lemma apply_title_case_standard_witness :
  @apply_title_case Demo.runtime (Some "  Roasted Almonds ") "standard"
  = PyStr.strip (PyStr.or_empty (Some "  Roasted Almonds "))
  /\ @apply_title_case Demo.runtime
       (Some (@apply_title_case Demo.runtime (Some "  Roasted Almonds ") "standard")) "standard"
     = @apply_title_case Demo.runtime (Some "  Roasted Almonds ") "standard".
Proof.
  apply (@apply_title_case_standard Demo.runtime (Some "  Roasted Almonds ") "standard");
    discriminate.
Defined.

Lemma apply_title_case_blank_witness :
  @apply_title_case Demo.runtime (Some "   ") "upper" = "".
Proof.
  apply (@apply_title_case_blank Demo.runtime (Some "   ") "upper"); reflexivity.
Defined.

(** ** More on word wrapping and the text panel *)

Section WrapMore.
Context {RT : Runtime}.
Import PyStr.

Lemma split_extended cur w :
  is_token w = true ->
  split (if truthy cur then cur +:+ " " +:+ w else w) = split cur ++ [w].
Proof.
  intros Ht. destruct cur as [|c r]; simpl truthy; cbv iota.
  - rewrite (PyStrFacts.split_run w Ht). reflexivity.
  - change (String c r +:+ " " +:+ w) with (String c r +:+ String " " w).
    rewrite PyStrMore.split_app_ws by reflexivity.
    rewrite (PyStrFacts.split_run w Ht). reflexivity.
Qed.

Lemma greedy_fill_words width limit words cur :
  Forall (fun t => is_token t = true) words ->
  concat (map split (Spec.greedy_fill width limit words cur)) = split cur ++ words.
Proof.
  intros Hw. revert cur. induction Hw as [|w words Ht Hw IH]; intros cur; simpl.
  - destruct cur; simpl; now rewrite ?app_nil_r.
  - destruct (_ <=? _).
    + rewrite IH, split_extended by exact Ht. now rewrite <- app_assoc.
    + rewrite map_app, concat_app, IH, (PyStrFacts.split_run w Ht).
      destruct cur; simpl; now rewrite ?app_nil_r.
Qed.

Lemma wrap_text_words pad txt font max_w :
  concat (map split (wrap_text pad txt font max_w)) = split txt.
Proof.
  rewrite wrap_text_greedy, greedy_fill_words by apply PyStrFacts.split_tokens.
  reflexivity.
Qed.

(** X6: Wrapping neither loses, adds, reorders nor alters a word: the
    words of the lines, read in order, are the words of the text. *)
Theorem wrap_text_keeps_words (pad : Z) (txt : string) (font : Font) (max_w : Z) :
  concat (map split (wrap_text pad txt font max_w)) = split txt.
Proof. apply wrap_text_words. Qed.

Lemma greedy_fill_lines width limit words cur :
  Forall (fun t => is_token t = true) words ->
  (cur = EmptyString \/ width cur <= limit \/ is_token cur = true) ->
  Forall (fun line => truthy line = true /\ (width line <= limit \/ is_token line = true))
         (Spec.greedy_fill width limit words cur).
Proof.
  intros Hw. revert cur. induction Hw as [|w words Ht Hw IH]; intros cur Hcur; simpl.
  - destruct cur as [|c r]; simpl; [constructor|].
    constructor; [|constructor]. split; [reflexivity|].
    destruct Hcur as [?|Hcur]; [discriminate|exact Hcur].
  - destruct (Z.leb_spec (width (if truthy cur then cur +:+ " " +:+ w else w)) limit) as [Hfit|_].
    + apply IH. right. now left.
    + apply Forall_app. split.
      * destruct cur as [|c r]; simpl; [constructor|].
        constructor; [|constructor]. split; [reflexivity|].
        destruct Hcur as [?|Hcur]; [discriminate|exact Hcur].
      * apply IH. right. now right.
Qed.

(** X7: No line is empty, and a line wider than [max_w - 2 * pad] is a single
    word that could not be broken. *)
Theorem wrap_text_lines_fit (pad : Z) (txt : string) (font : Font) (max_w : Z) :
  Forall (fun line =>
            truthy line = true
            /\ (rendered_width font line <= max_w - 2 * pad \/ is_token line = true))
         (wrap_text pad txt font max_w).
Proof.
  rewrite wrap_text_greedy. apply greedy_fill_lines.
  - apply PyStrFacts.split_tokens.
  - now left.
Qed.

(** Wrapping depends on the words of the text only. *)
Lemma wrap_text_by_words pad txt txt' font max_w :
  split txt = split txt' -> wrap_text pad txt font max_w = wrap_text pad txt' font max_w.
Proof. intros E. unfold wrap_text. now rewrite E. Qed.

(** X8: Wrapping is idempotent: the wrapped lines joined by newlines wrap into
    the same lines again. *)
Theorem wrap_text_idempotent (pad : Z) (txt : string) (font : Font) (max_w : Z) :
  wrap_text pad (join newline (wrap_text pad txt font max_w)) font max_w
  = wrap_text pad txt font max_w.
Proof.
  apply wrap_text_by_words. unfold newline.
  rewrite PyStrMore.split_join_ws by reflexivity.
  apply wrap_text_words.
Qed.

(** *** What the panel shows *)

Lemma draw_title_lines_items cfg font lines st :
  map snd (drawn_items (fst (fold_left (draw_title_line cfg font) lines st)))
  = map snd (drawn_items (fst st)) ++ map codepoints lines.
Proof.
  revert st. induction lines as [|l lines IH]; intros [canvas y].
  - simpl. now rewrite app_nil_r.
  - simpl fold_left. rewrite IH. simpl. rewrite map_app, <- app_assoc. reflexivity.
Qed.

(** With a font that can draw the arrow the bullet loop does not raise. *)
Lemma draw_bullets_items cfg color font bullets st :
  encodable (Some font) arrow = true ->
  exists st',
    draw_bullets cfg color font bullets st = Ok st'
    /\ map snd (drawn_items (fst st'))
       = map snd (drawn_items (fst st))
         ++ flat_map (fun b => [arrow; codepoints (clamp_words (Some b) (text_max_words_per_bullet cfg))])
              (List.filter (fun b => truthy b) bullets).
Proof.
  intros Hfont. revert st. induction bullets as [|b bullets IH]; intros [canvas y].
  - eexists. split; [reflexivity|]. simpl. now rewrite app_nil_r.
  - cbn [draw_bullets List.filter]. unfold draw_bullet, draw_codepoints, textsize_codepoints.
    rewrite Hfont. destruct (truthy b); cbn [negb bind].
    + destruct (textsize_wide (Some font) arrow) as [aw ah]. cbn [bind].
      match goal with |- context [draw_bullets _ _ _ _ ?s] => destruct (IH s) as (st' & E & Hi) end.
      exists st'. split; [exact E|]. rewrite Hi. simpl.
      rewrite !map_app, <- !app_assoc. reflexivity.
    + apply IH.
Qed.

(** The built-in font fails on the arrow of the first bullet that is not
    empty. *)
Lemma draw_bullets_bitmap cfg color bullets st :
  List.filter (fun b => truthy b) bullets <> [] ->
  draw_bullets cfg color DefaultBitmapFont bullets st = Raise UnicodeEncodeError.
Proof.
  revert st. induction bullets as [|b bullets IH]; intros [canvas y] H; [now elim H|].
  cbn [draw_bullets List.filter] in *. unfold draw_bullet.
  destruct (truthy b); cbn [negb bind].
  - reflexivity.
  - now apply IH.
Qed.

(** X9: once the canvas and the two fonts are made, the panel shows the
    wrapped title lines, top down, and then for each non-empty bullet the
    arrow and the clamped bullet text, when the body font is a FreeType
    font or no bullet is left to draw; with the built-in bitmap font as
    body font, the arrow of the first non-empty bullet raises
    [UnicodeEncodeError]. *)
Theorem render_text_panel_texts (text_title : string) (bullets : list string)
    (cfg : Config) (fonts : Fonts) (pw : Z) (color : rgb) (title_font body_font : Font) :
  panel_width cfg = Ok pw ->
  hex_to_rgb (bullet_color_hex cfg) = Some color ->
  0 <= pw -> 0 <= frame_height cfg ->
  sized (fonts_title fonts) (title_font_size_px cfg) = Ok title_font ->
  sized (fonts_body fonts) (body_font_size_px cfg) = Ok body_font ->
  let shown := List.filter (fun b => truthy b) bullets in
  let title_lines :=
    wrap_text (edge_padding_px cfg)
      (apply_title_case (Some text_title) (default "standard" (title_case_style cfg)))
      title_font (pw - 2 * edge_padding_px cfg) in
  (body_font <> DefaultBitmapFont \/ shown = [] ->
   exists panel,
     render_text_panel text_title bullets cfg fonts = Ok panel
     /\ map snd (drawn_items panel)
        = map codepoints title_lines
          ++ flat_map (fun b => [arrow; codepoints (clamp_words (Some b)
                                                      (text_max_words_per_bullet cfg))])
               shown)
  /\ (body_font = DefaultBitmapFont -> shown <> [] ->
      render_text_panel text_title bullets cfg fonts = Raise UnicodeEncodeError).
Proof.
  intros Hpw Hcolor Hpw0 HH0 Htf Hbf shown title_lines.
  assert (Hnew : Image_new pw (frame_height cfg) (255, 255, 255, 0)
                 = Ok (New pw (frame_height cfg) (255, 255, 255, 0))).
  { unfold Image_new.
    destruct (Z.ltb_spec pw 0); [lia|]. now destruct (Z.ltb_spec (frame_height cfg) 0); [lia|]. }
  unfold render_text_panel, hex_color. rewrite Hpw, Hcolor. cbn [bind].
  rewrite Hnew, Htf, Hbf. cbn [bind]. fold title_lines.
  match goal with |- context [fold_left (draw_title_line ?c ?f) ?ls ?st] =>
    pose proof (draw_title_lines_items c f ls st) as Ht;
    destruct (fold_left (draw_title_line c f) ls st) as [canvas y]
  end.
  simpl in Ht. split.
  - intros [Hfont|Hnone].
    + assert (He : encodable (Some body_font) arrow = true)
        by (destruct body_font; [reflexivity|congruence]).
      destruct (draw_bullets_items cfg color body_font bullets
                  (canvas, y + text_line_spacing_px cfg) He) as (st' & E & Hi).
      exists (fst st'). rewrite E. split; [reflexivity|].
      rewrite Hi. simpl fst. now rewrite Ht.
    + assert (E : forall st, draw_bullets cfg color body_font bullets st = Ok st).
      { fold shown in Hnone. clear -Hnone. subst shown.
        induction bullets as [|b bullets IH]; intros st; [reflexivity|].
        cbn [draw_bullets List.filter] in *. unfold draw_bullet. destruct st as [c y].
        destruct (truthy b); [discriminate|]. cbn [negb bind]. apply IH. exact Hnone. }
      exists canvas. rewrite E. split; [reflexivity|].
      rewrite Hnone. simpl. now rewrite app_nil_r.
  - intros -> Hshown.
    now rewrite draw_bullets_bitmap by exact Hshown.
Qed.

End WrapMore.

Lemma render_text_panel_texts_witness :
  exists panel,
    @render_text_panel Scenario.dejavu "Roasted Almonds"
      ["Crunchy and fresh every day"; ""; "Slow baked"] Demo.cfg
      (@main_fonts Scenario.dejavu Demo.cfg) = Ok panel
    /\ map snd (drawn_items panel)
       = map codepoints
           (@wrap_text Scenario.dejavu (edge_padding_px Demo.cfg)
              (@apply_title_case Scenario.dejavu (Some "Roasted Almonds")
                 (default "standard" (title_case_style Demo.cfg)))
              (FreeTypeFont "DejaVuSans-Bold.ttf" 55) (960 - 2 * edge_padding_px Demo.cfg))
         ++ flat_map (fun b => [arrow; codepoints (clamp_words (Some b)
                                                     (text_max_words_per_bullet Demo.cfg))])
              (List.filter (fun b => PyStr.truthy b)
                 ["Crunchy and fresh every day"; ""; "Slow baked"]).
Proof.
  destruct (@render_text_panel_texts Scenario.dejavu "Roasted Almonds"
              ["Crunchy and fresh every day"; ""; "Slow baked"] Demo.cfg
              (@main_fonts Scenario.dejavu Demo.cfg) 960 (120, 24, 90)
              (FreeTypeFont "DejaVuSans-Bold.ttf" 55) (FreeTypeFont "DejaVuSans.ttf" 50))
    as [Hdraws _].
  - reflexivity.
  - reflexivity.
  - lia.
  - vm_compute. discriminate.
  - reflexivity.
  - reflexivity.
  - apply Hdraws. left. discriminate.
Defined.

(** The same panel on the two machines: with the DejaVu fonts the title,
    the two arrows and the two bullets clamped to four words are drawn;
    with the built-in font the first arrow cannot be drawn, and a panel
    without bullets can. *)
Example render_text_panel_examples :
  result_map drawn_texts
    (@render_text_panel Scenario.dejavu "Roasted Almonds"
       ["Crunchy and fresh every day"; ""; "Slow baked"] Demo.cfg
       (@main_fonts Scenario.dejavu Demo.cfg))
  = Ok [((48, 48), "Roasted Almonds"); ((91, 123), "Crunchy and fresh every");
        ((91, 183), "Slow baked")]
  /\ result_map (fun panel => List.filter (fun item => negb (encodable None (snd item)))
                                (drawn_items panel))
       (@render_text_panel Scenario.dejavu "Roasted Almonds"
          ["Crunchy and fresh every day"; ""; "Slow baked"] Demo.cfg
          (@main_fonts Scenario.dejavu Demo.cfg))
     = Ok [((48, 123), arrow); ((48, 183), arrow)]
  /\ @render_text_panel Demo.runtime "Roasted Almonds"
       ["Crunchy and fresh every day"; ""; "Slow baked"] Demo.cfg Demo.fonts
     = Raise UnicodeEncodeError
  /\ result_map drawn_texts
       (@render_text_panel Demo.runtime "Roasted Almonds" [""] Demo.cfg Demo.fonts)
     = Ok [((48, 48), "Roasted Almonds")].
Proof. repeat split. Qed.


(** ** More on [int] *)

Section IntFacts.
Local Open Scope Q_scope.

(** On a non-positive float, [int] is the ceiling. *)
Lemma py_int_ceiling (x : Q) : x <= 0 -> py_int x = Qceiling x.
Proof.
  destruct x as [n d]. unfold py_int, Qceiling, Qfloor, Qopp, Qle. simpl. intros H.
  rewrite <- (Z.opp_involutive n) at 1.
  rewrite Z.quot_opp_l by lia. f_equal.
  apply Z.quot_div_nonneg; lia.
Qed.

Lemma py_int_compat (x y : Q) : x == y -> py_int x = py_int y.
Proof.
  intros E. destruct (Qlt_le_dec x 0) as [H|H].
  - rewrite !py_int_ceiling by (rewrite <- ?E; lra). now rewrite E.
  - apply py_int_nonneg_compat; assumption.
Qed.

(** An integer below a float is below its floor. *)
Lemma Qfloor_lub (z : Z) (x : Q) : inject_Z z <= x -> (z <= Qfloor x)%Z.
Proof.
  intros H. rewrite <- (Qfloor_Z z). now apply Qfloor_resp_le.
Qed.

Lemma Qceiling_glb (z : Z) (x : Q) : x <= inject_Z z -> (Qceiling x <= z)%Z.
Proof.
  intros H. rewrite <- (Qceiling_Z z). now apply Qceiling_resp_le.
Qed.

(** [int] of a float between two integers stays between them. *)
Lemma py_int_between (a b : Z) (x : Q) :
  inject_Z a <= x -> x <= inject_Z b -> (a <= py_int x <= b)%Z.
Proof.
  intros Ha Hb. destruct (Qlt_le_dec x 0) as [H|H].
  - rewrite py_int_ceiling by lra. split.
    + rewrite Zle_Qle. pose proof (Qle_ceiling x). lra.
    + now apply Qceiling_glb.
  - rewrite py_int_floor by exact H. split.
    + now apply Qfloor_lub.
    + rewrite Zle_Qle. pose proof (Qfloor_le x). lra.
Qed.

Lemma py_int_mono (x y : Q) : x <= y -> (py_int x <= py_int y)%Z.
Proof.
  intros H. destruct (Qlt_le_dec x 0) as [Hx|Hx]; destruct (Qlt_le_dec y 0) as [Hy|Hy].
  - rewrite !py_int_ceiling by lra. now apply Qceiling_resp_le.
  - rewrite py_int_ceiling by lra. rewrite (py_int_floor y) by exact Hy.
    transitivity 0%Z.
    + apply Qceiling_glb. change (x <= 0). lra.
    + apply Qfloor_lub. exact Hy.
  - lra.
  - rewrite !py_int_floor by lra. now apply Qfloor_resp_le.
Qed.

End IntFacts.

(** ** Resizing *)

Lemma Image_resize_size (im0 : Image) (w h : Z) (out : Image) :
  Image_resize im0 w h = Ok out -> size out = (w, h).
Proof.
  unfold Image_resize.
  destruct ((fst (size im0) =? w) && (snd (size im0) =? h)) eqn:E.
  - intros [= <-]. apply andb_true_iff in E as [E1 E2].
    apply Z.eqb_eq in E1, E2. destruct (size im0). simpl in *. now subst.
  - destruct ((w <? 1) || (h <? 1)); [discriminate|]. now intros [= <-].
Qed.

(** X5: [upscale_min_side] returns the image as it is when its smaller side
    is at least [min_side]. Otherwise it divides [min_side] by the smaller
    side, which raises when that side is 0, and resizes both sides by the
    binary64 quotient, truncating each product. The smaller side can fall
    one pixel short of [min_side]: 333 by 444 becomes 999 by 1333. *)
Theorem upscale_min_side_cases (im0 : Image) (min_side : Z) :
  let w := fst (size im0) in
  let h := snd (size im0) in
  (min_side <= Z.min w h -> upscale_min_side im0 min_side = Ok im0)
  /\ (Z.min w h < min_side -> Z.min w h = 0 ->
      upscale_min_side im0 min_side = Raise ZeroDivisionError)
  /\ (forall out,
        Z.min w h < min_side -> upscale_min_side im0 min_side = Ok out ->
        exists scale,
          true_divide min_side (Z.min w h) = Ok scale
          /\ scale_side w scale = Ok (fst (size out))
          /\ scale_side h scale = Ok (snd (size out)))
  /\ upscale_min_side (Bitmap "a.png" 333 444) 1000 = Ok (Resize (Bitmap "a.png" 333 444) 999 1333)
  /\ upscale_min_side (Bitmap "b.png" 600 450) 1000 = Ok (Resize (Bitmap "b.png" 600 450) 1333 1000)
  /\ upscale_min_side (Bitmap "c.png" 1080 720) 1000 = Ok (Resize (Bitmap "c.png" 1080 720) 1500 1000)
  /\ upscale_min_side (Bitmap "d.png" 1200 1000) 1000 = Ok (Bitmap "d.png" 1200 1000).
Proof.
  intros w h. unfold upscale_min_side. subst w h.
  destruct (size im0) as [w h]. cbn [fst snd].
  split; [|split; [|split]].
  - intros H. now destruct (Z.geb_spec (Z.min w h) min_side); [|lia].
  - intros H H0. destruct (Z.geb_spec (Z.min w h) min_side); [lia|].
    unfold true_divide. now rewrite H0.
  - intros out H E. destruct (Z.geb_spec (Z.min w h) min_side); [lia|].
    apply bind_Ok in E as (scale & Hs & E).
    apply bind_Ok in E as (nw & Hw & E).
    apply bind_Ok in E as (nh & Hh & E).
    apply Image_resize_size in E. rewrite E. exists scale. repeat split; assumption.
  - repeat split.
Qed.

(** ** The pasted logo and the product area *)

Section Placement.
Context {RT : Runtime}.




End Placement.




(** Two photographs in the 864 by 864 area of the demonstration. The
    first is fitted to the full width. The second, 1080 by 720, is upscaled
    to 1500 by 1000 and then fitted to 863 by 576: the rounded factor
    leaves it one pixel short of the width. *)
Example fitted_sizes :
  result_map (fun L => (size (im L), (avail_w L, avail_h L), new_size L, (rx L, ry L)))
    (@slide_locals Demo.runtime "images/almonds.png" "Roasted Almonds" [] Demo.cfg
       Demo.fonts (Some Demo.logo))
  = Ok ((1333, 1000), (864, 864), (864, 648), (1008, 156))
  /\ result_map (fun L => (size (im L), (avail_w L, avail_h L), new_size L, (rx L, ry L)))
       (@slide_locals Demo.runtime "images/muesli.png" "Muesli" [] Demo.cfg
          Demo.fonts (Some Demo.logo))
     = Ok ((1500, 1000), (864, 864), (863, 576), (1008, 192)).
Proof. split; vm_compute; reflexivity. Qed.

(** ** Entrance positions *)

Section Motion.
Context {RT : Runtime}.
Local Open Scope Q_scope.

(** X13: The text panel starts just off the left edge, moves right without ever
    going back, stays between its start and its rest position, and rests at
    x = 0 from 0.6 s on; its y is always 0. *)
Theorem panel_pos_motion (L : SlideLocals) :
  (0 <= panel_w L)%Z ->
  panel_pos L 0 = (- panel_w L, 0)%Z
  /\ (forall t, 6 # 10 <= t -> panel_pos L t = (0, 0)%Z)
  /\ (forall t, 0 <= t -> (- panel_w L <= fst (panel_pos L t) <= 0)%Z /\ snd (panel_pos L t) = 0%Z)
  /\ (forall s t, s <= t -> (fst (panel_pos L s) <= fst (panel_pos L t))%Z).
Proof.
  intros Hpw.
  assert (Qpw : 0 <= inject_Z (panel_w L)).
  { change 0 with (inject_Z 0). now rewrite <- Zle_Qle. }
  unfold panel_pos. split; [|split; [|split]].
  - f_equal. rewrite (py_int_compat _ (inject_Z (- panel_w L))); [apply py_int_inject|].
    rewrite inject_Z_opp.
    assert (E : ease_out_cubic 0 == 0) by reflexivity. rewrite E. ring.
  - intros t Ht. f_equal.
    rewrite (py_int_compat _ (inject_Z 0)); [apply py_int_inject|].
    rewrite (ease_out_cubic_late t Ht). change (inject_Z 0) with 0. ring.
  - intros t Ht. split; [|reflexivity]. simpl fst.
    destruct (ease_out_cubic_range t Ht) as [H0 H1].
    assert (Hp : 0 <= ease_out_cubic t * inject_Z (panel_w L) <= inject_Z (panel_w L)).
    { split; [apply Qmult_le_0_compat; lra|].
      rewrite <- (Qmult_1_l (inject_Z (panel_w L))) at 2.
      apply Qmult_le_compat_r; lra. }
    apply py_int_between.
    + rewrite inject_Z_opp. lra.
    + change (inject_Z 0) with 0. lra.
  - intros s t Hst. simpl fst. apply py_int_mono.
    pose proof (ease_out_cubic_mono s t Hst) as Hm.
    assert (ease_out_cubic s * inject_Z (panel_w L) <= ease_out_cubic t * inject_Z (panel_w L))
      by (apply Qmult_le_compat_r; lra).
    lra.
Qed.

(** X14: The product image starts at the right edge of the frame, moves left
    without ever going back, and rests at [rx] from 0.6 s on, when [rx] is
    inside the frame; its y is always [ry]. *)
Theorem prod_pos_motion (cfg : Config) (L : SlideLocals) :
  (rx L <= frame_width cfg)%Z ->
  prod_pos cfg L 0 = (frame_width cfg, ry L)
  /\ (forall t, 6 # 10 <= t -> prod_pos cfg L t = (rx L, ry L))
  /\ (forall t, 0 <= t ->
        (rx L <= fst (prod_pos cfg L t) <= frame_width cfg)%Z /\ snd (prod_pos cfg L t) = ry L)
  /\ (forall s t, s <= t -> (fst (prod_pos cfg L t) <= fst (prod_pos cfg L s))%Z).
Proof.
  intros Hrx.
  assert (Qrx : inject_Z (rx L) <= inject_Z (frame_width cfg)) by now rewrite <- Zle_Qle.
  unfold prod_pos. split; [|split; [|split]].
  - f_equal. rewrite (py_int_compat _ (inject_Z (frame_width cfg))); [apply py_int_inject|].
    assert (E : ease_out_cubic 0 == 0) by reflexivity. rewrite E. ring.
  - intros t Ht. f_equal.
    rewrite (py_int_compat _ (inject_Z (rx L))); [apply py_int_inject|].
    rewrite (ease_out_cubic_late t Ht). ring.
  - intros t Ht. split; [|reflexivity]. simpl fst.
    destruct (ease_out_cubic_range t Ht) as [H0 H1].
    set (e := ease_out_cubic t) in *.
    set (d := inject_Z (frame_width cfg) - inject_Z (rx L)).
    assert (Hd : 0 <= d) by (unfold d; lra).
    assert (Hp : 0 <= e * d <= d).
    { split; [apply Qmult_le_0_compat; lra|].
      rewrite <- (Qmult_1_l d) at 2. apply Qmult_le_compat_r; lra. }
    apply py_int_between.
    + assert (E : inject_Z (frame_width cfg) + (inject_Z (rx L) - inject_Z (frame_width cfg)) * e
                  == inject_Z (frame_width cfg) - e * d) by (unfold d; ring).
      rewrite E. unfold d in *. lra.
    + assert (E : inject_Z (frame_width cfg) + (inject_Z (rx L) - inject_Z (frame_width cfg)) * e
                  == inject_Z (frame_width cfg) - e * d) by (unfold d; ring).
      rewrite E. lra.
  - intros s t Hst. simpl fst. apply py_int_mono.
    pose proof (ease_out_cubic_mono s t Hst) as Hm.
    set (d := inject_Z (frame_width cfg) - inject_Z (rx L)).
    assert (Hd : 0 <= d) by (unfold d; lra).
    assert (H : ease_out_cubic s * d <= ease_out_cubic t * d)
      by (apply Qmult_le_compat_r; lra).
    assert (Es : inject_Z (frame_width cfg)
                 + (inject_Z (rx L) - inject_Z (frame_width cfg)) * ease_out_cubic s
                 == inject_Z (frame_width cfg) - ease_out_cubic s * d) by (unfold d; ring).
    assert (Et : inject_Z (frame_width cfg)
                 + (inject_Z (rx L) - inject_Z (frame_width cfg)) * ease_out_cubic t
                 == inject_Z (frame_width cfg) - ease_out_cubic t * d) by (unfold d; ring).
    rewrite Es, Et. lra.
Qed.

End Motion.

Lemma panel_pos_motion_witness :
  let L := Scenario.almonds_locals in
  panel_pos L 0%Q = (- panel_w L, 0)
  /\ (forall t, (6 # 10 <= t)%Q -> panel_pos L t = (0, 0))
  /\ (forall t, (0 <= t)%Q -> (- panel_w L <= fst (panel_pos L t) <= 0) /\ snd (panel_pos L t) = 0)
  /\ (forall s t, (s <= t)%Q -> fst (panel_pos L s) <= fst (panel_pos L t)).
Proof.
  apply (panel_pos_motion Scenario.almonds_locals).
  vm_compute. discriminate.
Defined.

Lemma prod_pos_motion_witness :
  let L := Scenario.almonds_locals in
  prod_pos Demo.cfg L 0%Q = (frame_width Demo.cfg, ry L)
  /\ (forall t, (6 # 10 <= t)%Q -> prod_pos Demo.cfg L t = (rx L, ry L))
  /\ (forall t, (0 <= t)%Q ->
        (rx L <= fst (prod_pos Demo.cfg L t) <= frame_width Demo.cfg)
        /\ snd (prod_pos Demo.cfg L t) = ry L)
  /\ (forall s t, (s <= t)%Q -> fst (prod_pos Demo.cfg L t) <= fst (prod_pos Demo.cfg L s)).
Proof.
  apply (prod_pos_motion Demo.cfg Scenario.almonds_locals).
  vm_compute. discriminate.
Defined.

(** ** More on the run *)

Section RunMore.
Context {RT : Runtime}.

Lemma keyword_makes_ineligible cfg row k :
  In k (default [] (barcode_filename_keywords cfg)) ->
  PyStr.contains k (PyStr.lower (row_image_file cfg row)) = true ->
  row_eligible cfg row = false.
Proof.
  intros Hk Hc. unfold row_eligible, looks_like_barcode.
  assert (H : existsb (fun k => PyStr.contains k (PyStr.lower (row_image_file cfg row)))
                (default [] (barcode_filename_keywords cfg)) = true)
    by (apply existsb_exists; eauto).
  rewrite H. simpl. apply andb_false_r.
Qed.

(** X16: A row whose lower-cased file name contains one of the configured
    keywords is not rendered, whatever its skip flag says. *)
Theorem barcode_keyword_excludes (cfg : Config) (row : Row) (k : string) :
  In k (default [] (barcode_filename_keywords cfg)) ->
  PyStr.contains k (PyStr.lower (row_image_file cfg row)) = true ->
  row_eligible cfg row = false
  /\ forall fonts logo_rgba rest slides,
       collect_slides cfg fonts logo_rgba (row :: rest) slides
       = collect_slides cfg fonts logo_rgba rest slides.
Proof.
  intros Hk Hc. pose proof (keyword_makes_ineligible cfg row k Hk Hc) as E.
  split; [exact E|]. intros. now apply collect_slides_ineligible.
Qed.

(** X18: The empty keyword is contained in every file name: with it in the
    list no row is rendered and the run ends with "No slides to render". *)
Theorem empty_keyword_excludes_every_row (cfg : Config) (df : list Row)
    (logo_rgba : option Image) :
  In EmptyString (default [] (barcode_filename_keywords cfg)) ->
  load_logo cfg = Some logo_rgba ->
  List.filter (row_eligible cfg) df = []
  /\ main cfg df = SysExit 1 no_slides_message.
Proof.
  intros Hk Hlogo.
  assert (E : List.filter (row_eligible cfg) df = []).
  { induction df as [|row df IH]; [reflexivity|]. simpl.
    rewrite (keyword_makes_ineligible cfg row "" Hk); [exact IH|].
    destruct (PyStr.lower _); reflexivity. }
  split; [exact E|].
  pose proof (main_cases cfg df) as H. rewrite Hlogo, E, take_nil in H. exact H.
Qed.

(** X19: How [main] ends. No run writes a video and every run ends with
    exit status 1: with "No slides to render" when the logo step succeeds
    and no eligible row is left under the cap, and otherwise with an
    uncaught exception, from the logo step or from the slide builder at the
    first eligible row. *)
Theorem main_outcome (cfg : Config) (df : list Row) :
  let rendered := take (Z.to_nat (max_slides cfg)) (List.filter (row_eligible cfg) df) in
  video_written (main cfg df) = false
  /\ exit_status (main cfg df) = 1
  /\ (main cfg df = SysExit 1 no_slides_message
      <-> (exists logo_rgba, load_logo cfg = Some logo_rgba) /\ rendered = [])
  /\ ((exists e, main cfg df = Uncaught e)
      <-> load_logo cfg = None \/ rendered <> [])
  /\ (forall logo_rgba row rest,
        load_logo cfg = Some logo_rgba -> rendered = row :: rest ->
        exists e,
          build_slide_clip (PyPath.join (images_folder cfg) (row_image_file cfg row))
            (PyStr.strip (str (row_get row (title_col cfg)))) (row_bullets cfg row)
            cfg (main_fonts cfg) logo_rgba = Raise e
          /\ main cfg df = Uncaught e).
Proof.
  cbv zeta. split; [apply main_never_writes|]. split; [apply main_never_writes|].
  pose proof (main_cases cfg df) as H.
  destruct (load_logo cfg) as [logo_rgba|] eqn:Hlogo.
  2:{ rewrite H. split; [|split].
      - split; [discriminate|]. intros [[? ?] _]. discriminate.
      - split; [now left|eauto].
      - discriminate. }
  destruct (take _ _) as [|row rest] eqn:Et.
  - rewrite H. split; [|split].
    + split; [eauto|reflexivity].
    + split; [intros [e ?]; discriminate|]. intros [?|?]; congruence.
    + discriminate.
  - destruct H as (e & Hrow & Hmain). rewrite Hmain. split; [|split].
    + split; [discriminate|]. intros [_ ?]. discriminate.
    + split; [right; discriminate|eauto].
    + intros logo' row' rest' [= <-] [= <- <-].
      destruct (row_clip_raises cfg (main_fonts cfg) logo_rgba row) as (e' & Hb & Hr).
      exists e. split; [|reflexivity]. congruence.
Qed.

(** X20: The bullets read from a row: at most one for each configured column,
    none of them empty, none with whitespace at either end. *)
Theorem row_bullets_clean (cfg : Config) (row : Row) :
  (length (row_bullets cfg row) <= length (bullets_cols cfg))%nat
  /\ Forall (fun b => PyStr.truthy b = true /\ PyStr.strip b = b) (row_bullets cfg row).
Proof.
  unfold row_bullets. split.
  - etransitivity; [apply filter_length_le|]. now rewrite length_map.
  - apply List.Forall_forall. intros b Hb. apply filter_In in Hb as [Hin Ht].
    split; [exact Ht|]. apply in_map_iff in Hin as (col & <- & _).
    apply PyStrMore.strip_idem.
Qed.

(** X21: An absent image column excludes the row, but a blank cell, which the
    sheet reader delivers as NaN, does not: its file name is "nan", and the
    row passes the filters unless the skip flag or a keyword says otherwise. *)
Theorem blank_image_cell_is_not_empty (cfg : Config) (row : Row) :
  (row !! image_col cfg = None -> row_eligible cfg row = false)
  /\ (row !! image_col cfg = Some (CStr "") -> row_eligible cfg row = false)
  /\ (row !! image_col cfg = Some CNaN ->
      row_image_file cfg row = "nan"
      /\ row_eligible cfg row
         = negb (row_skipped cfg row) && negb (looks_like_barcode cfg "nan")).
Proof.
  unfold row_eligible, row_image_file, row_get. split; [|split]; intros ->; simpl.
  - now rewrite andb_false_r.
  - now rewrite andb_false_r.
  - split; [reflexivity|]. now rewrite andb_true_r.
Qed.


End RunMore.

(** ** The statements above at concrete runs *)

Lemma barcode_keyword_excludes_witness :
  row_eligible Demo.cfg Scenario.qr_row = false
  /\ forall fonts logo_rgba rest slides,
       @collect_slides Demo.runtime Demo.cfg fonts logo_rgba (Scenario.qr_row :: rest) slides
       = @collect_slides Demo.runtime Demo.cfg fonts logo_rgba rest slides.
Proof.
  apply (@barcode_keyword_excludes Demo.runtime Demo.cfg Scenario.qr_row "qr").
  - right. left. reflexivity.
  - vm_compute. reflexivity.
Defined.

Lemma empty_keyword_excludes_every_row_witness :
  List.filter (row_eligible (Scenario.with_keywords Demo.cfg ["barcode"; ""])) Demo.five_rows = []
  /\ @main Demo.runtime (Scenario.with_keywords Demo.cfg ["barcode"; ""]) Demo.five_rows
     = SysExit 1 no_slides_message.
Proof.
  apply (@empty_keyword_excludes_every_row Demo.runtime
           (Scenario.with_keywords Demo.cfg ["barcode"; ""]) Demo.five_rows (Some Demo.logo)).
  - right. left. reflexivity.
  - reflexivity.
Defined.


(** A track of duration 0 under a video cannot be looped: the quotient of
    the two durations raises. *)
Example silent_track_raises :
  fit_audio (AudioFile Demo.music_file 0) (25 # 1) = Raise ZeroDivisionError.
Proof. reflexivity. Qed.

(** ** Keywords, paths and colours *)

Module KeywordFacts.
Import PyStr.

Lemma lower_char_idem c : lower_char (lower_char c) = lower_char c.
Proof. destruct c as [[] [] [] [] [] [] [] []]; reflexivity. Qed.

(** Every character of a lower-cased string is its own lower case. *)
Lemma lower_chars s c :
  In c (list_ascii_of_string (lower s)) -> lower_char c = c.
Proof.
  induction s as [|x s IH]; simpl; [tauto|].
  intros [<-|H]; [apply lower_char_idem|now apply IH].
Qed.

Lemma prefix_of_chars k s c :
  prefix_of k s = true ->
  In c (list_ascii_of_string k) -> In c (list_ascii_of_string s).
Proof.
  revert s. induction k as [|a k IH]; intros s; simpl; [tauto|].
  destruct s as [|b s]; [discriminate|].
  destruct (Ascii.eqb_spec a b) as [->|_]; [|discriminate].
  intros Hp [<-|Hc]; simpl; [now left|right; now apply IH].
Qed.

(** A string contains the characters of its substrings. *)
Lemma contains_chars k s c :
  contains k s = true ->
  In c (list_ascii_of_string k) -> In c (list_ascii_of_string s).
Proof.
  induction s as [|b s IH]; simpl.
  - rewrite orb_false_r. apply prefix_of_chars.
  - intros H Hc. apply orb_true_iff in H as [H|H].
    + now apply (prefix_of_chars k (String b s) c H).
    + right. now apply IH.
Qed.

End KeywordFacts.

(** X17: Only the file name is lower-cased, not the keywords: a keyword with a
    character that lower-casing changes (an upper-case letter) is contained
    in no lower-cased file name, so it never excludes a row. *)
Theorem uppercase_keyword_never_matches (k image_file : string) (c : ascii) :
  In c (list_ascii_of_string k) ->
  PyStr.lower_char c <> c ->
  PyStr.contains k (PyStr.lower image_file) = false.
Proof.
  intros Hc Hup. destruct (PyStr.contains k (PyStr.lower image_file)) eqn:E; [|reflexivity].
  exfalso. apply Hup. apply (KeywordFacts.lower_chars image_file).
  now apply (KeywordFacts.contains_chars k).
Qed.

Lemma uppercase_keyword_never_matches_witness :
  PyStr.contains "QR" (PyStr.lower "QR_Label.PNG") = false.
Proof.
  apply (uppercase_keyword_never_matches "QR" "QR_Label.PNG" "Q").
  - left. reflexivity.
  - discriminate.
Defined.

Module PathFacts.
Import PyPath.

Lemma split_on_nonempty sep s : split_on sep s <> [].
Proof.
  destruct s as [|c s]; simpl; [discriminate|].
  destruct (Ascii.eqb c sep); [discriminate|]. destruct (split_on sep s); discriminate.
Qed.

Lemma split_on_app sep a b :
  split_on sep (a +:+ String sep b) = split_on sep a ++ split_on sep b.
Proof.
  induction a as [|c a IH].
  - simpl. now rewrite Ascii.eqb_refl.
  - change (String c a +:+ String sep b) with (String c (a +:+ String sep b)).
    simpl. destruct (Ascii.eqb c sep).
    + now rewrite IH.
    + rewrite IH. pose proof (split_on_nonempty sep a) as Hne.
      destruct (split_on sep a); [congruence|reflexivity].
Qed.

(** A string without the separator is one component. *)
Lemma split_on_plain sep s :
  ~ In sep (list_ascii_of_string s) -> split_on sep s = [s].
Proof.
  induction s as [|c s IH]; [reflexivity|]. simpl. intros H.
  destruct (Ascii.eqb_spec c sep) as [->|_]; [tauto|].
  rewrite IH by tauto. reflexivity.
Qed.

End PathFacts.

(** X23: For a plain file name (no slash, not empty, not ".") the last
    component of [img_root / image_file] is the file name itself, so the
    placeholder of a missing photograph is labelled with the name as the
    sheet gives it. *)
Theorem placeholder_names_the_sheet_file (root file : string) :
  ~ In "/"%char (list_ascii_of_string file) ->
  file <> "" -> file <> "." ->
  PyPath.name (PyPath.join root file) = file
  /\ drawn_texts (placeholder (PyPath.join root file))
     = [((40, 40), "Missing image:" +:+ newline +:+ file)].
Proof.
  intros Hslash He Hd.
  assert (Hparts : PyPath.parts file = [file]).
  { unfold PyPath.parts. rewrite PathFacts.split_on_plain by exact Hslash. simpl.
    apply String.eqb_neq in He, Hd. now rewrite He, Hd. }
  assert (Hname : PyPath.name (PyPath.join root file) = file).
  { unfold PyPath.join.
    assert (Hp : PyStr.prefix_of "/" file = false).
    { destruct file as [|c r]; [reflexivity|].
      change (PyStr.prefix_of "/" (String c r))
        with (if Ascii.eqb "/" c then PyStr.prefix_of "" r else false).
      destruct (Ascii.eqb_spec "/"%char c) as [<-|_]; [|reflexivity].
      exfalso. apply Hslash. now left. }
    rewrite Hp. destruct (String.eqb root "").
    - unfold PyPath.name. now rewrite Hparts.
    - unfold PyPath.name, PyPath.parts.
      change (root +:+ "/" +:+ file) with (root +:+ String "/" file).
      rewrite PathFacts.split_on_app, List.filter_app.
      fold (PyPath.parts file). rewrite Hparts. apply last_last. }
  split; [exact Hname|]. unfold placeholder. simpl. now rewrite Hname.
Qed.

Lemma placeholder_names_the_sheet_file_witness :
  PyPath.name (PyPath.join "images" "granola.png") = "granola.png"
  /\ drawn_texts (placeholder (PyPath.join "images" "granola.png"))
     = [((40, 40), "Missing image:" +:+ newline +:+ "granola.png")].
Proof.
  apply (placeholder_names_the_sheet_file "images" "granola.png").
  - vm_compute. intuition discriminate.
  - discriminate.
  - discriminate.
Defined.

(** *** [hex_to_rgb] *)

Module HexFacts.
Import Scenario.

Definition byte_ok (upper : bool) (n : nat) : bool :=
  match int16 (hex_byte upper (Z.of_nat n)) with
  | Some v => (v =? Z.of_nat n)
              && negb (Ascii.eqb (hex_char upper (Z.of_nat n / 16)) "#")
  | None => false
  end.

Lemma all_bytes_ok upper : forallb (byte_ok upper) (seq 0 256) = true.
Proof. destruct upper; vm_compute; reflexivity. Qed.

(** [int(s, 16)] reads back every byte written as two hex digits. *)
Lemma int16_hex_byte upper (n : Z) :
  0 <= n < 256 ->
  int16 (hex_byte upper n) = Some n
  /\ Ascii.eqb (hex_char upper (n / 16)) "#" = false.
Proof.
  intros Hn. pose proof (all_bytes_ok upper) as H.
  rewrite forallb_forall in H. specialize (H (Z.to_nat n)).
  rewrite in_seq in H. specialize (H ltac:(lia)).
  unfold byte_ok in H. rewrite Z2Nat.id in H by lia.
  destruct (int16 (hex_byte upper n)) as [v|]; [|discriminate].
  apply andb_true_iff in H as [Hv Hc]. apply Z.eqb_eq in Hv. subst v.
  split; [reflexivity|]. now apply negb_true_iff in Hc.
Qed.

Lemma append_cons c a b : String c a +:+ b = String c (a +:+ b).
Proof. reflexivity. Qed.

Lemma prefix_of_single c x s :
  PyStr.prefix_of (String c EmptyString) (String x s) = Ascii.eqb c x.
Proof. cbn [PyStr.prefix_of]. now destruct (Ascii.eqb c x). Qed.

Lemma lstrip_hashes n s :
  PyStr.prefix_of "#" s = false -> lstrip_char "#" (hashes n +:+ s) = lstrip_char "#" s.
Proof. intros H. induction n as [|n IH]; [reflexivity|exact IH]. Qed.

End HexFacts.

(** X24: [hex_to_rgb] decodes the six-digit form of every colour, in upper or
    lower case; any number of leading [#] and anything after the sixth
    digit are ignored. *)
Theorem hex_to_rgb_decodes (upper : bool) (r g b : Z) (n : nat) (rest : string) :
  0 <= r < 256 -> 0 <= g < 256 -> 0 <= b < 256 ->
  hex_to_rgb (Scenario.hashes n +:+ Scenario.hex_byte upper r +:+ Scenario.hex_byte upper g
              +:+ Scenario.hex_byte upper b +:+ rest)
  = Some (r, g, b).
Proof.
  intros Hr Hg Hb.
  destruct (HexFacts.int16_hex_byte upper r Hr) as [Er Hc].
  destruct (HexFacts.int16_hex_byte upper g Hg) as [Eg _].
  destruct (HexFacts.int16_hex_byte upper b Hb) as [Eb _].
  unfold hex_to_rgb. rewrite HexFacts.lstrip_hashes.
  - unfold Scenario.hex_byte in *. simpl String.append. simpl lstrip_char.
    rewrite Hc. unfold str_slice. simpl str_drop. simpl str_take.
    now rewrite Er, Eg, Eb.
  - unfold Scenario.hex_byte. rewrite HexFacts.append_cons.
    rewrite HexFacts.prefix_of_single, Ascii.eqb_sym. exact Hc.
Qed.

Lemma hex_to_rgb_decodes_witness :
  hex_to_rgb (Scenario.hashes 1 +:+ Scenario.hex_byte true 120 +:+ Scenario.hex_byte true 24
              +:+ Scenario.hex_byte true 90 +:+ "")
  = Some (120, 24, 90).
Proof.
  apply (hex_to_rgb_decodes true 120 24 90 1 ""); lia.
Defined.

(** X25: With fewer than five characters after the leading [#] the third slice
    is empty and [hex_to_rgb] raises: the three-digit short form is not
    read. *)
Theorem hex_to_rgb_short_raises (h : string) :
  (String.length (lstrip_char "#" h) <= 4)%nat -> hex_to_rgb h = None.
Proof.
  intros H. unfold hex_to_rgb.
  assert (E : str_slice (lstrip_char "#" h) 4 6 = "").
  { unfold str_slice. destruct (lstrip_char "#" h) as [|a [|b [|c [|d [|e s]]]]];
      try reflexivity. simpl in H. lia. }
  rewrite E. destruct (int16 _); [|reflexivity]. destruct (int16 _); reflexivity.
Qed.

Lemma hex_to_rgb_short_raises_witness : hex_to_rgb "#FFF" = None.
Proof. apply (hex_to_rgb_short_raises "#FFF"). simpl. lia. Defined.

Example hex_to_rgb_examples :
  hex_to_rgb "#FFFFFF" = Some (255, 255, 255)
  /\ hex_to_rgb "#78185A" = Some (120, 24, 90)
  /\ hex_to_rgb "78185a" = Some (120, 24, 90)
  /\ hex_to_rgb "#12345" = Some (18, 52, 5)
  /\ hex_to_rgb "#GG0000" = None
  /\ hex_to_rgb "" = None.
Proof. repeat split. Qed.

(** ** The width cap of the pasted logo *)

(** X10: [paste_logo] draws the logo at most 18% of the frame wide and never
    larger than it was loaded. *)
Theorem paste_logo_caps_width (W : Z) (logo_im : Image) :
  0 <= W -> 0 < fst (size logo_im) -> 0 <= snd (size logo_im) ->
  (inject_Z (fst (size (scaled_logo W logo_im))) <= inject_Z W * (18 # 100))%Q
  /\ fst (size (scaled_logo W logo_im)) <= fst (size logo_im)
  /\ snd (size (scaled_logo W logo_im)) <= snd (size logo_im).
Proof. apply scaled_logo_capped. Qed.

Lemma paste_logo_caps_width_witness :
  (inject_Z (fst (size (scaled_logo 1920 Demo.logo))) <= inject_Z 1920 * (18 # 100))%Q
  /\ fst (size (scaled_logo 1920 Demo.logo)) <= fst (size Demo.logo)
  /\ snd (size (scaled_logo 1920 Demo.logo)) <= snd (size Demo.logo).
Proof.
  apply (paste_logo_caps_width 1920 Demo.logo); [lia|reflexivity|simpl; lia].
Defined.

(** ** Renders started from the front end *)

(** X26: Every render started from the front end fails: whatever the
    settings, the uploads and the sheet, the renderer ends with exit
    status 1, and the page shows its error box instead of the download. *)
Theorem front_end_render_fails {RT : Runtime} (work : string) (s : Streamlit.Settings)
    (df : list Row) :
  exit_status (main (Streamlit.build_cfg work s) df) = 1
  /\ video_written (main (Streamlit.build_cfg work s) df) = false
  /\ Streamlit.render work s df = Streamlit.RenderFailed.
Proof.
  destruct (main_never_writes (Streamlit.build_cfg work s) df) as [Hw He].
  split; [exact He|]. split; [exact Hw|].
  unfold Streamlit.render. now rewrite He.
Qed.

(** A sheet of three products without bullets, none of them on disk, under
    the default settings. *)
Example front_end_demo :
  @main Demo.runtime (Streamlit.build_cfg "work" Streamlit.demo_settings)
    [Demo.granola_plain; Demo.granola_plain; Demo.granola_plain]
  = Uncaught TypeError.
Proof. reflexivity. Qed.

